(** * vcftk: the dataset facade [VCFClass] and the [Genotype] codec

    A shallow embedding of [src/vcftk/main.py].  Python values are modelled
    by the Rocq types closest to them: [int] and [bool] as [Z] ([True] is
    [1], [False] is [0]: [bool] is a subclass of [int], and both indexing and
    [int(...)] read it that way), [str] as [string], a [list] as [list],
    a raised exception as the [Raise] branch of [Res]. *)

From Stdlib Require Import ZArith List String Ascii Bool Lia QArith.
Import ListNotations.
Open Scope string_scope.
Open Scope Z_scope.

(** ** Exceptions and results *)

Inductive PyExc : Type :=
| IndexError
| KeyError (key : string)
| AttributeError (attr : string)
| NameError (name : string)
| ValueError (msg : string)
| OSError (path : string)
| InvalidIndexError.

Inductive Res (A : Type) : Type :=
| Ok (a : A)
| Raise (e : PyExc).
Arguments Ok {A} a.
Arguments Raise {A} e.

Definition res_bind {A B} (r : Res A) (k : A -> Res B) : Res B :=
  match r with
  | Ok a => k a
  | Raise e => Raise e
  end.

(** A generator expression consumed by [join], [list] or a comprehension:
    elements are produced left to right and the first exception escapes. *)
Fixpoint res_map {A B} (f : A -> Res B) (l : list A) : Res (list B) :=
  match l with
  | [] => Ok []
  | x :: xs =>
      res_bind (f x) (fun y =>
      res_bind (res_map f xs) (fun ys => Ok (y :: ys)))
  end.

(** ** Python sequence primitives *)

Module Py.

(** [s[i]] on a [str]: a negative index counts from the end, anything
    outside [-len, len) raises [IndexError]. *)
Definition str_getitem (s : string) (i : Z) : Res string :=
  let n := Z.of_nat (String.length s) in
  let j := if i <? 0 then i + n else i in
  if (j <? 0) || (n <=? j) then Raise IndexError
  else match String.get (Z.to_nat j) s with
       | Some c => Ok (String c EmptyString)
       | None => Raise IndexError
       end.

(** [l[i]] on a [list], same index rule. *)
Definition list_getitem {A} (l : list A) (i : Z) : Res A :=
  let n := Z.of_nat (List.length l) in
  let j := if i <? 0 then i + n else i in
  if (j <? 0) || (n <=? j) then Raise IndexError
  else match nth_error l (Z.to_nat j) with
       | Some x => Ok x
       | None => Raise IndexError
       end.

(** [l[:-1]]: slicing never raises; the empty list slices to itself. *)
Definition list_init {A} (l : list A) : list A := removelast l.

(** [sep.join(parts)]. *)
Fixpoint join (sep : string) (parts : list string) : string :=
  match parts with
  | [] => ""
  | [p] => p
  | p :: ps => (p ++ sep ++ join sep ps)%string
  end.

End Py.

(** ** class Genotype *)

Record Genotype : Type := mkGenotype {
  alleles : list Z;
  phased : Z
}.

(** [Genotype.__init__(self, li)]. *)
Definition Genotype_init (li : list Z) : Res Genotype :=
  let alleles := Py.list_init li in
  res_bind (Py.list_getitem li (-1)) (fun phased =>
  Ok (mkGenotype alleles phased)).

(** [Genotype.__str__(self)]. *)
Definition Genotype_str (self : Genotype) : Res string :=
  res_bind (Py.str_getitem "/|" (phased self)) (fun sep =>
  res_bind (res_map (fun a => Py.str_getitem "0123." a) (alleles self))
    (fun symbols => Ok (Py.join sep symbols))).

(** [str(Genotype(li))]: decode a raw per-sample call, then encode it. *)
Definition Genotype_codec (li : list Z) : Res string :=
  res_bind (Genotype_init li) Genotype_str.

(** The decimal digit of an allele index in [0..9] as a one-character string. *)
Definition digit_str (a : Z) : string :=
  String (ascii_of_nat (48 + Z.to_nat a)) EmptyString.

(** What an allele slot shows when it holds a symbol index or the reader's
    missing marker [-1] (or [4], the position of the dot in the table). *)
Definition allele_symbol (a : Z) : string :=
  if (a =? -1) || (a =? 4) then "." else digit_str a.

Definition phase_sep (ph : bool) : string := if ph then "|" else "/".

(** ** The pandas values the facade handles *)

(** A table cell, an index label or a column label. *)
Inductive Cell : Type :=
| CNone
| CNaN
| CInt (z : Z)
| CFloat (q : Q)
| CStr (s : string).

(** Label and value equality as pandas hashes them: missing equals missing,
    an [int] equals the [float] of the same value. *)
Definition Cell_eqb (a b : Cell) : bool :=
  match a, b with
  | CNone, CNone => true
  | CNaN, CNaN => true
  | CInt x, CInt y => x =? y
  | CFloat x, CFloat y => Qeq_bool x y
  | CInt x, CFloat y => Qeq_bool (inject_Z x) y
  | CFloat x, CInt y => Qeq_bool x (inject_Z y)
  | CStr s, CStr t => String.eqb s t
  | _, _ => false
  end.

Fixpoint row_eqb (r1 r2 : list Cell) : bool :=
  match r1, r2 with
  | [], [] => true
  | a :: r1', b :: r2' => Cell_eqb a b && row_eqb r1' r2'
  | _, _ => false
  end.

Definition cell_in (c : Cell) (l : list Cell) : bool :=
  existsb (Cell_eqb c) l.

Fixpoint position (c : Cell) (l : list Cell) : option nat :=
  match l with
  | [] => None
  | x :: xs => if Cell_eqb c x then Some O
               else option_map S (position c xs)
  end.

(** A [pandas.Series] of cells: labelled values, with the name of the index
    they came from. *)
Record Series : Type := mkSeries {
  sr_index_name : option string;
  sr_index : list Cell;
  sr_values : list Cell
}.

(** A [pandas.DataFrame]: row labels, column labels, and the rows. *)
Record DataFrame : Type := mkDataFrame {
  df_index_name : option string;
  df_index : list Cell;
  df_columns : list Cell;
  df_rows : list (list Cell)
}.

Module Pd.

Definition range_index (n : nat) : list Cell :=
  map (fun i => CInt (Z.of_nat i)) (seq 0 n).

(** [df[col]]: the column as a Series, [KeyError] when there is none. *)
Definition getcol (df : DataFrame) (col : string) : Res Series :=
  match position (CStr col) (df_columns df) with
  | None => Raise (KeyError col)
  | Some k =>
      Ok (mkSeries (df_index_name df) (df_index df)
            (map (fun r => nth k r CNaN) (df_rows df)))
  end.

(** [s.duplicated().any()]: some value repeats an earlier one. *)
Fixpoint any_duplicated (vals : list Cell) : bool :=
  match vals with
  | [] => false
  | v :: vs => cell_in v vs || any_duplicated vs
  end.

Fixpoint remove_nth {A} (k : nat) (l : list A) : list A :=
  match k, l with
  | _, [] => []
  | O, _ :: xs => xs
  | S k', x :: xs => x :: remove_nth k' xs
  end.

(** [df.set_index(col, drop=drop)]. *)
Definition set_index (df : DataFrame) (col : string) (drop : bool)
  : Res DataFrame :=
  match position (CStr col) (df_columns df) with
  | None => Raise (KeyError col)
  | Some k =>
      let labels := map (fun r => nth k r CNaN) (df_rows df) in
      if drop
      then Ok (mkDataFrame (Some col) labels
                 (remove_nth k (df_columns df))
                 (map (remove_nth k) (df_rows df)))
      else Ok (mkDataFrame (Some col) labels (df_columns df) (df_rows df))
  end.

(** [df.drop(columns=[col])]. *)
Definition drop_column (df : DataFrame) (col : string) : Res DataFrame :=
  match position (CStr col) (df_columns df) with
  | None => Raise (KeyError col)
  | Some k =>
      Ok (mkDataFrame (df_index_name df) (df_index df)
            (remove_nth k (df_columns df))
            (map (remove_nth k) (df_rows df)))
  end.

(** [df[col] = values] for a list of values: a new last column, or the
    existing one replaced; [ValueError] when the length differs from the
    number of rows. *)
Fixpoint replace_nth {A} (k : nat) (v : A) (l : list A) : list A :=
  match k, l with
  | _, [] => []
  | O, _ :: xs => v :: xs
  | S k', x :: xs => x :: replace_nth k' v xs
  end.

Definition setcol (df : DataFrame) (col : string) (values : list Cell)
  : Res DataFrame :=
  if negb (Nat.eqb (List.length values) (List.length (df_index df)))
  then Raise (ValueError "Length of values does not match length of index")
  else
    match position (CStr col) (df_columns df) with
    | Some k =>
        Ok (mkDataFrame (df_index_name df) (df_index df) (df_columns df)
              (map (fun rv => replace_nth k (snd rv) (fst rv))
                 (combine (df_rows df) values)))
    | None =>
        Ok (mkDataFrame (df_index_name df) (df_index df)
              (df_columns df ++ [CStr col])%list
              (map (fun rv => (fst rv ++ [snd rv])%list)
                 (combine (df_rows df) values)))
    end.

(** [df.columns = names]. *)
Definition set_columns (df : DataFrame) (names : list string)
  : Res DataFrame :=
  if Nat.eqb (List.length names) (List.length (df_columns df))
  then Ok (mkDataFrame (df_index_name df) (df_index df)
             (map CStr names) (df_rows df))
  else Raise (ValueError "Length mismatch").

(** [df.replace(old, new)]. *)
Definition replace (df : DataFrame) (old new : Cell) : DataFrame :=
  mkDataFrame (df_index_name df) (df_index df) (df_columns df)
    (map (map (fun c => if Cell_eqb c old then new else c)) (df_rows df)).

(** [df.reset_index()]: the index becomes the first column, named after
    the index (["index"] when it has no name). *)
Definition reset_index (df : DataFrame) : Res DataFrame :=
  let name := match df_index_name df with
              | Some n => n
              | None => "index"
              end in
  if cell_in (CStr name) (df_columns df)
  then Raise (ValueError ("cannot insert " ++ name ++ ", already exists"))
  else Ok (mkDataFrame None
             (range_index (List.length (df_index df)))
             (CStr name :: df_columns df)
             (map (fun lr => fst lr :: snd lr)
                (combine (df_index df) (df_rows df)))).

(** [df.drop_duplicates()]: a row equal to an earlier row is dropped; the
    rows kept retain their labels. *)
Fixpoint dedup_rows (seen : list (list Cell))
    (rows : list (Cell * list Cell)) : list (Cell * list Cell) :=
  match rows with
  | [] => []
  | (l, r) :: rest =>
      if existsb (row_eqb r) seen then dedup_rows seen rest
      else (l, r) :: dedup_rows (r :: seen) rest
  end.

Definition drop_duplicates (df : DataFrame) : DataFrame :=
  let kept := dedup_rows [] (combine (df_index df) (df_rows df)) in
  mkDataFrame (df_index_name df) (map fst kept) (df_columns df)
    (map snd kept).

End Pd.

(** ** str methods and the [.str] accessor *)

Module Str.

(** [s.split(sep)] for a one-character separator: one more part than
    there are separators, empty parts kept. *)
Fixpoint split (sep : ascii) (s : string) : list string :=
  match s with
  | EmptyString => [""]
  | String c s' =>
      if Ascii.eqb c sep then "" :: split sep s'
      else match split sep s' with
           | [] => [String c EmptyString]
           | p :: ps => String c p :: ps
           end
  end.

Fixpoint lstrip (ch : ascii) (s : string) : string :=
  match s with
  | EmptyString => EmptyString
  | String c s' => if Ascii.eqb c ch then lstrip ch s' else s
  end.

Fixpoint rstrip (ch : ascii) (s : string) : string :=
  match s with
  | EmptyString => EmptyString
  | String c s' =>
      match rstrip ch s' with
      | EmptyString =>
          if Ascii.eqb c ch then EmptyString else String c EmptyString
      | r => String c r
      end
  end.

(** [s.strip(ch)] for a one-character set. *)
Definition strip (ch : ascii) (s : string) : string :=
  rstrip ch (lstrip ch s).

(** A Series whose values are lists, as [.str.split(sep)] returns it;
    [None] stands for the NaN a value that is not a [str] turns into. *)
Record ListSeries : Type := mkListSeries {
  ls_index_name : option string;
  ls_index : list Cell;
  ls_values : list (option (list string))
}.

(** [series.str.split(sep)]. *)
Definition series_split (sep : ascii) (s : Series) : ListSeries :=
  mkListSeries (sr_index_name s) (sr_index s)
    (map (fun v => match v with
                   | CStr x => Some (split sep x)
                   | _ => None
                   end) (sr_values s)).

(** [series.explode()]: one row per list element, under the label of the
    row it came from; NaN and the empty list give one NaN row. *)
Definition explode_row (lv : Cell * option (list string))
  : list (Cell * Cell) :=
  match snd lv with
  | Some (p :: ps) => map (fun x => (fst lv, CStr x)) (p :: ps)
  | _ => [(fst lv, CNaN)]
  end.

Definition explode (s : ListSeries) : Series :=
  let items := flat_map explode_row (combine (ls_index s) (ls_values s)) in
  mkSeries (ls_index_name s) (map fst items) (map snd items).

(** [series.str.split(sep, expand=True)]: a table with as many columns,
    labelled [0..n-1], as the longest row has parts; shorter rows are
    padded with [None], a NaN row is NaN throughout. *)
Definition expand_parts (v : Cell) (sep : ascii) : list Cell :=
  match v with
  | CStr x => map CStr (split sep x)
  | _ => [CNaN]
  end.

Definition expand_row (n : nat) (v : Cell) (sep : ascii) : list Cell :=
  match v with
  | CStr x =>
      let parts := map CStr (split sep x) in
      (parts ++ repeat CNone (n - List.length parts))%list
  | _ => repeat CNaN n
  end.

Definition series_split_expand (sep : ascii) (s : Series) : DataFrame :=
  let n := fold_right Nat.max O
             (map (fun v => List.length (expand_parts v sep))
                (sr_values s)) in
  mkDataFrame (sr_index_name s) (sr_index s) (Pd.range_index n)
    (map (fun v => expand_row n v sep) (sr_values s)).

End Str.

(** ** Combining tables *)

Module PdJoin.

Definition same_name (a b : option string) : option string :=
  match a, b with
  | Some x, Some y => if String.eqb x y then Some x else None
  | _, _ => None
  end.

(** Overlapping column labels take the suffixes [_x] and [_y]. *)
Definition suffix (sfx : string) (others : list Cell) (c : Cell) : Cell :=
  match c with
  | CStr n => if cell_in c others then CStr (n ++ sfx) else c
  | _ => c
  end.

(** [left.merge(right, left_index=True, right_index=True)]: the inner
    join on the row labels, in the order of the left table. *)
Definition merge_on_index (left right : DataFrame) : DataFrame :=
  let rrows := combine (df_index right) (df_rows right) in
  let joined :=
    flat_map (fun lr : Cell * list Cell =>
                map (fun rr : Cell * list Cell =>
                       (fst lr, (snd lr ++ snd rr)%list))
                  (filter (fun rr => Cell_eqb (fst lr) (fst rr)) rrows))
      (combine (df_index left) (df_rows left)) in
  mkDataFrame (same_name (df_index_name left) (df_index_name right))
    (map fst joined)
    (map (suffix "_x" (df_columns right)) (df_columns left)
     ++ map (suffix "_y" (df_columns left)) (df_columns right))%list
    (map snd joined).

Fixpoint lookup_row (lab : Cell) (rows : list (Cell * list Cell))
  : option (list Cell) :=
  match rows with
  | [] => None
  | (l, r) :: rest => if Cell_eqb lab l then Some r else lookup_row lab rest
  end.

(** [pd.concat([a, b], axis=1)]: columns side by side, rows matched on
    the label.  Equal indexes are pasted as they stand; otherwise the
    indexes must be duplicate-free and the result has the union of the
    labels, with NaN where a table has no such row. *)
Definition concat_columns (a b : DataFrame) : Res DataFrame :=
  let cols := (df_columns a ++ df_columns b)%list in
  let name := same_name (df_index_name a) (df_index_name b) in
  if row_eqb (df_index a) (df_index b)
  then Ok (mkDataFrame name (df_index a) cols
             (map (fun rr => (fst rr ++ snd rr)%list)
                (combine (df_rows a) (df_rows b))))
  else if Pd.any_duplicated (df_index a) || Pd.any_duplicated (df_index b)
  then Raise InvalidIndexError
  else
    let arows := combine (df_index a) (df_rows a) in
    let brows := combine (df_index b) (df_rows b) in
    let labels :=
      (df_index a
       ++ filter (fun l => negb (cell_in l (df_index a))) (df_index b))%list in
    let side rows width lab :=
      match lookup_row lab rows with
      | Some r => r
      | None => repeat CNaN width
      end in
    Ok (mkDataFrame name labels cols
          (map (fun lab =>
                  (side arows (List.length (df_columns a)) lab
                   ++ side brows (List.length (df_columns b)) lab)%list)
             labels)).

End PdJoin.

(** ** dict and DataFrame-from-dict *)

Module Dict.

(** A [dict] with cell keys: insertion-ordered, a repeated key overwrites
    the value and keeps its place. *)
Definition t : Type := list (Cell * Cell).

Fixpoint set (k v : Cell) (d : t) : t :=
  match d with
  | [] => [(k, v)]
  | (k', v') :: rest =>
      if Cell_eqb k k' then (k', v) :: rest else (k', v') :: set k v rest
  end.

Fixpoint get (k : Cell) (d : t) : option Cell :=
  match d with
  | [] => None
  | (k', v') :: rest => if Cell_eqb k k' then Some v' else get k rest
  end.

Definition keys (d : t) : list Cell := map fst d.

Fixpoint union_keys (acc : list Cell) (ks : list Cell) : list Cell :=
  match ks with
  | [] => acc
  | k :: rest =>
      if cell_in k acc then union_keys acc rest
      else union_keys (acc ++ [k])%list rest
  end.

(** [pd.DataFrame(d)] for a dict of dicts: one column per outer key, one
    row per inner key, NaN where an inner dict lacks the key. *)
Definition to_frame (d : list (string * t)) : DataFrame :=
  let labels := fold_left (fun acc col => union_keys acc (keys (snd col)))
                  d [] in
  mkDataFrame None labels (map (fun col => CStr (fst col)) d)
    (map (fun lab =>
            map (fun col => match get lab (snd col) with
                            | Some v => v
                            | None => CNaN
                            end) d)
       labels).

End Dict.

(** ** The variant-call stream (cyvcf2) *)

(** One record of the stream, with the fields the facade reads.  The six
    summary values are the record's own (cyvcf2 computes them). *)
Record Variant : Type := mkVariant {
  CHROM : string;
  POS : Z;
  ID : option string;
  REF : string;
  ALT : list string;
  QUAL : Cell;
  FILTER : Cell;
  FORMAT : list string;
  INFO : list (string * string);
  num_called : Cell;
  call_rate : Cell;
  aaf : Cell;
  nucl_diversity : Cell;
  var_type : Cell;
  var_subtype : Cell
}.

(** A file on disk: header descriptions by key, sample columns, records. *)
Record VcfFile : Type := mkVcfFile {
  file_header : list (string * string);
  file_samples : list string;
  file_records : list Variant
}.

(** An open [VCF] handle: forward-only, so all it knows of its position is
    the records still to come.  The thread count is [None] until
    [set_threads] is called on the handle. *)
Record VCF : Type := mkVCF {
  vcf_file : VcfFile;
  vcf_active : list string;
  vcf_pending : list Variant;
  vcf_threads : option Z
}.

(** What happens to streams, in order. *)
Inductive Event : Type :=
| EvOpen (path : string)
| EvSetSamples (samples : list string)
| EvRead.

Definition is_read (e : Event) : bool :=
  match e with
  | EvRead => true
  | _ => false
  end.

Definition reads (tr : list Event) : nat := List.length (filter is_read tr).

(** ** class VCFClass: the instance *)

(** The attributes [__init__] binds, and the three that exist only once
    their property has run ([None] is "no such attribute"). *)
Record VCFClass : Type := mkVCFClass {
  vcf : VCF;
  _vcf_path : string;
  _sample_id_column : string;
  _threads : Z;
  sample_info : DataFrame;
  samples : list string;
  _variants_ : option DataFrame;
  _var_ids_ : option (list Cell);
  _var_info_ : option DataFrame
}.

Definition with_vcf (v : VCF) (o : VCFClass) : VCFClass :=
  mkVCFClass v (_vcf_path o) (_sample_id_column o) (_threads o)
    (sample_info o) (samples o) (_variants_ o) (_var_ids_ o) (_var_info_ o).

Definition with_variants (t : DataFrame) (o : VCFClass) : VCFClass :=
  mkVCFClass (vcf o) (_vcf_path o) (_sample_id_column o) (_threads o)
    (sample_info o) (samples o) (Some t) (_var_ids_ o) (_var_info_ o).

Definition with_var_ids (l : list Cell) (o : VCFClass) : VCFClass :=
  mkVCFClass (vcf o) (_vcf_path o) (_sample_id_column o) (_threads o)
    (sample_info o) (samples o) (_variants_ o) (Some l) (_var_info_ o).

Definition with_var_info (t : DataFrame) (o : VCFClass) : VCFClass :=
  mkVCFClass (vcf o) (_vcf_path o) (_sample_id_column o) (_threads o)
    (sample_info o) (samples o) (_variants_ o) (_var_ids_ o) (Some t).

(** A printed object (the text itself is advisory). *)
Inductive Printed : Type :=
| PrKey (key : list Cell)
| PrText (s : string).

(** ** The world a method runs in *)

(** The instance the method is called on, the files its path can name, and
    what the caller can observe besides the result: the stream events, the
    standard output and the warnings issued. *)
Record World : Type := mkWorld {
  self : VCFClass;
  disk : list (string * VcfFile);
  trace : list Event;
  stdout : list Printed;
  warnings : list string
}.

(** A method body: it ends in a value or an exception, and the world it
    leaves behind is kept in both cases. *)
Definition M (A : Type) : Type := World -> Res A * World.

Definition ret {A} (a : A) : M A := fun w => (Ok a, w).

Definition raise {A} (e : PyExc) : M A := fun w => (Raise e, w).

Definition bind {A B} (m : M A) (k : A -> M B) : M B :=
  fun w => match m w with
           | (Ok a, w') => k a w'
           | (Raise e, w') => (Raise e, w')
           end.

Notation "x <- m ;; k" := (bind m (fun x => k))
  (at level 61, m at next level, right associativity).
Notation "m ;; k" := (bind m (fun _ => k))
  (at level 61, right associativity).

Definition lift {A} (r : Res A) : M A := fun w => (r, w).

Definition get_self : M VCFClass := fun w => (Ok (self w), w).

Definition modify_self (f : VCFClass -> VCFClass) : M unit :=
  fun w => (Ok tt, mkWorld (f (self w)) (disk w) (trace w) (stdout w)
                     (warnings w)).

Definition emit (evs : list Event) : M unit :=
  fun w => (Ok tt, mkWorld (self w) (disk w) (trace w ++ evs)%list (stdout w)
                     (warnings w)).

Definition print (p : Printed) : M unit :=
  fun w => (Ok tt, mkWorld (self w) (disk w) (trace w) (stdout w ++ [p])%list
                     (warnings w)).

(** An expression statement: the value is built and dropped. *)
Definition expr_stmt {A} (value : A) : M unit := ret tt.

Fixpoint for_each {A} (l : list A) (body : A -> M unit) : M unit :=
  match l with
  | [] => ret tt
  | x :: xs => body x ;; for_each xs body
  end.

Fixpoint lookup_str {A} (k : string) (l : list (string * A)) : option A :=
  match l with
  | [] => None
  | (k', v) :: rest => if String.eqb k k' then Some v else lookup_str k rest
  end.

Module Cyvcf2.

(** [VCF(path)]: a new handle at the first record, every sample active. *)
Definition VCF_open (path : string) : M VCF :=
  fun w => match lookup_str path (disk w) with
           | Some f =>
               (emit [EvOpen path] ;;
                ret (mkVCF f (file_samples f) (file_records f) None)) w
           | None => (Raise (OSError path), w)
           end.

(** [vcf.set_samples(samples)]: the active sample columns become those of
    the file that are requested; which records come is not changed. *)
Definition set_samples (v : VCF) (samples : list string) : M VCF :=
  emit [EvSetSamples samples] ;;
  ret (mkVCF (vcf_file v)
         (filter (fun s => existsb (String.eqb s) samples)
            (file_samples (vcf_file v)))
         (vcf_pending v) (vcf_threads v)).

(** [vcf.set_threads(n)]. *)
Definition set_threads (v : VCF) (n : Z) : VCF :=
  mkVCF (vcf_file v) (vcf_active v) (vcf_pending v) (Some n).

(** [vcf.get_header_type(key)["Description"]]. *)
Definition header_description (v : VCF) (key : string) : Res string :=
  match lookup_str key (file_header (vcf_file v)) with
  | Some d => Ok d
  | None => Raise (KeyError key)
  end.

(** [for var in self.vcf]: every pending record is read; the handle is
    left at the end of the stream. *)
Definition iterate : M (list Variant) :=
  o <- get_self ;;
  let recs := vcf_pending (vcf o) in
  emit (repeat EvRead (List.length recs)) ;;
  modify_self (with_vcf (mkVCF (vcf_file (vcf o)) (vcf_active (vcf o)) []
                           (vcf_threads (vcf o)))) ;;
  ret recs.

(** [zip(self.vcf, ids)]: a record is read before an id is asked for, so
    when the ids run out first one more record has been read. *)
Fixpoint zip_records (recs : list Variant) (ids : list Cell)
  : list (Variant * Cell) * (nat * list Variant) :=
  match recs with
  | [] => ([], (O, []))
  | v :: recs' =>
      match ids with
      | [] => ([], (1%nat, recs'))
      | i :: ids' =>
          let '(pairs, (n, rest)) := zip_records recs' ids' in
          ((v, i) :: pairs, (S n, rest))
      end
  end.

Definition zip_iterate (ids : list Cell) : M (list (Variant * Cell)) :=
  o <- get_self ;;
  let '(pairs, (n, rest)) := zip_records (vcf_pending (vcf o)) ids in
  emit (repeat EvRead n) ;;
  modify_self (with_vcf (mkVCF (vcf_file (vcf o)) (vcf_active (vcf o)) rest
                           (vcf_threads (vcf o)))) ;;
  ret pairs.

End Cyvcf2.

(** ** vcftk.parsing *)

Module Parsing.

Definition opt_cell (o : option string) : Cell :=
  match o with
  | Some s => CStr s
  | None => CNone
  end.

Definition positional_columns : list string :=
  ["CHROM"; "POS"; "ID"; "REF"; "ALT"; "QUAL"; "FILTER"; "FORMAT"].

(** The row of one record: its positional fields, then the requested info
    fields, with an empty cell where the record has no such field. *)
Definition metadata_row (info_fields : list string) (v : Variant)
  : list Cell :=
  ([CStr (CHROM v); CInt (POS v); opt_cell (ID v); CStr (REF v);
    CStr (Py.join "," (ALT v)); QUAL v; FILTER v;
    CStr (Py.join ":" (FORMAT v))]
   ++ map (fun k => match lookup_str k (INFO v) with
                    | Some x => CStr x
                    | None => CNaN
                    end) info_fields)%list.

(** Modelled from the spec: [get_variants_metadata] of [vcftk.parsing] is
    not among the sources.  It drains one full pass of the stream it is
    given (here always [self.vcf]) and builds the table of positional
    fields (chromosome, position, ID, reference, alternates, quality,
    filter, format-field names), one row per record in stream order,
    followed by the raw values of the info fields that were requested. *)
Definition get_variants_metadata (info_fields : list string) : M DataFrame :=
  recs <- Cyvcf2.iterate ;;
  ret (mkDataFrame None (Pd.range_index (List.length recs))
         (map CStr (positional_columns ++ info_fields)%list)
         (map (metadata_row info_fields) recs)).

Fixpoint union_strs (acc ks : list string) : list string :=
  match ks with
  | [] => acc
  | k :: rest =>
      if existsb (String.eqb k) acc then union_strs acc rest
      else union_strs (acc ++ [k])%list rest
  end.

(** Modelled from the spec: [get_variants_info] of [vcftk.parsing] is not
    among the sources.  It drains one full pass of the stream and builds
    the table of raw per-record info-field values, one row per record in
    stream order; a field a record does not carry is an empty cell, not a
    failure. *)
Definition get_variants_info : M DataFrame :=
  recs <- Cyvcf2.iterate ;;
  let fields := fold_left (fun acc v => union_strs acc (map fst (INFO v)))
                  recs [] in
  ret (mkDataFrame None (Pd.range_index (List.length recs))
         (map CStr fields)
         (map (fun v => map (fun k => match lookup_str k (INFO v) with
                                      | Some x => CStr x
                                      | None => CNaN
                                      end) fields) recs)).

Definition cell_text (c : Cell) : list string :=
  match c with
  | CStr s => [s]
  | _ => []
  end.

(** Modelled from the spec: [setup_samples_and_vcf] of [vcftk.parsing] is
    not among the sources.  It opens the stream at the path; with no sample
    table the roster is the stream's full sample list, tabulated under the
    sample-id column; with one, the table is keyed by its sample-id column
    and the stream is restricted to those samples. *)
Definition setup_samples_and_vcf (input_vcf : string)
    (input_sample_info : option DataFrame) (sample_id_column : string)
  : M (DataFrame * VCF) :=
  v <- Cyvcf2.VCF_open input_vcf ;;
  match input_sample_info with
  | None =>
      let names := map CStr (vcf_active v) in
      ret (mkDataFrame (Some sample_id_column) names
             [CStr sample_id_column] (map (fun n => [n]) names), v)
  | Some table =>
      keyed <- lift (Pd.set_index table sample_id_column false) ;;
      v' <- Cyvcf2.set_samples v (flat_map cell_text (df_index keyed)) ;;
      ret (keyed, v')
  end.

End Parsing.

(** ** Module scope of main.py *)

(** The names bound at module level: the imports, the functions and the
    classes.  There is no [import numpy as np]. *)
Definition module_globals : list string :=
  ["pd"; "build_var_ID"; "get_variants_metadata"; "get_variants_info";
   "get_var_format_from_vcf"; "setup_samples_and_vcf"; "parse_table";
   "Dict"; "VCF"; "Writer"; "set_pandas_display_options";
   "get_vcf_format_info"; "setup"; "VCFClass"; "Genotype"].

(** Reading a name that is neither local nor built in. *)
Definition global_name (name : string) : M unit :=
  if existsb (String.eqb name) module_globals then ret tt
  else raise (NameError name).

(** [np.nan]. *)
Definition np_nan : M Cell := global_name "np" ;; ret CNaN.

(** [table.loc[ids]] for a list of labels: the rows under each label, in
    the order asked; a label that is not in the index is a [KeyError]. *)
Definition loc_rows (table : DataFrame) (ids : list Cell) : Res DataFrame :=
  let rows := combine (df_index table) (df_rows table) in
  if forallb (fun i => cell_in i (df_index table)) ids
  then
    let picked := flat_map (fun i => filter (fun lr => Cell_eqb i (fst lr))
                                       rows) ids in
    Ok (mkDataFrame (df_index_name table) (map fst picked)
          (df_columns table) (map snd picked))
  else Raise (KeyError "not in index").

Definition duplicate_ids_message : string :=
  "There are duplicate / empty variant IDs - you must create unique IDs before proceeding, or problems will arise".

(** [Warning(msg)]: an exception instance, as a value. *)
Inductive WarningObject : Type :=
| Warning (msg : string).

(** [d[key] = value] on a dict keyed by group keys: a key already there
    keeps its place. *)
Fixpoint key_set {V} (key : list Cell) (value : V)
    (d : list (list Cell * V)) : list (list Cell * V) :=
  match d with
  | [] => [(key, value)]
  | (k, v) :: rest =>
      if row_eqb key k then (k, value) :: rest
      else (k, v) :: key_set key value rest
  end.

(** ** class VCFClass: the methods *)

Section Facade.

(** The info fields the parsing layer copies into the metadata table. *)
Variable metadata_info_fields : list string.

(** [table.groupby(by=columns)], iterated: the group keys with the rows of
    each (pandas; the facade only walks the result). *)
Variable groupby :
  DataFrame -> list string -> Res (list (list Cell * DataFrame)).

(** [VCFClass.__init__]. *)
Definition VCFClass_init (vcf : VCF) (vcf_path : string)
    (sample_info : DataFrame) (sample_id_column : string)
    (samples : list string) (threads : Z) : VCFClass :=
  mkVCFClass vcf vcf_path sample_id_column threads sample_info samples
    None None None.

(** [setup(vcf_path, sample_info, sample_id_column, threads)]. *)
Definition setup (vcf_path : string) (sample_info : option DataFrame)
    (sample_id_column : string) (threads : Z) : M VCFClass :=
  sv <- Parsing.setup_samples_and_vcf vcf_path sample_info sample_id_column ;;
  let vcf := Cyvcf2.set_threads (snd sv) threads in
  ret (VCFClass_init vcf vcf_path (fst sv) sample_id_column (vcf_active vcf)
         threads).

(** [VCFClass.reset_vcf_iterator]. *)
Definition reset_vcf_iterator : M unit :=
  o <- get_self ;;
  v <- Cyvcf2.VCF_open (_vcf_path o) ;;
  modify_self (with_vcf v) ;;
  o <- get_self ;;
  v' <- Cyvcf2.set_samples (vcf o) (samples o) ;;
  modify_self (with_vcf v').

(** Reading an attribute that [__init__] does not bind. *)
Definition getattr {A} (name : string) (field : VCFClass -> option A)
  : M A :=
  o <- get_self ;;
  match field o with
  | Some a => ret a
  | None => raise (AttributeError name)
  end.

(** [VCFClass.variants] (property, getter only). *)
Definition variants : M DataFrame :=
  o <- get_self ;;
  match _variants_ o with
  | Some _ => ret tt
  | None =>
      var_metadata <- Parsing.get_variants_metadata metadata_info_fields ;;
      ids <- lift (Pd.getcol var_metadata "ID") ;;
      (if Pd.any_duplicated (sr_values ids)
       then expr_stmt (Warning duplicate_ids_message)
       else ret tt) ;;
      indexed <- lift (Pd.set_index var_metadata "ID" false) ;;
      modify_self (with_variants indexed)
  end ;;
  reset_vcf_iterator ;;
  getattr "_variants_" _variants_.

(** [VCFClass.var_ids] (property, getter only). *)
Definition var_ids : M (list Cell) :=
  table <- getattr "_variants_" _variants_ ;;
  modify_self (with_var_ids (df_index table)) ;;
  getattr "_var_ids_" _var_ids_.

(** [VCFClass.var_info] (property, getter only). *)
Definition var_info : M DataFrame :=
  o <- get_self ;;
  match _var_info_ o with
  | Some _ => ret tt
  | None =>
      info <- Parsing.get_variants_info ;;
      ids <- var_ids ;;
      info <- lift (Pd.setcol info "ID" ids) ;;
      col <- lift (Pd.getcol info "ID") ;;
      (if Pd.any_duplicated (sr_values col)
       then expr_stmt (Warning duplicate_ids_message)
       else ret tt) ;;
      indexed <- lift (Pd.set_index info "ID" false) ;;
      modify_self (with_var_info indexed)
  end ;;
  reset_vcf_iterator ;;
  getattr "_var_info_" _var_info_.

(** [self.variants = value]: [variants] is a property of the class and has
    no setter, so the assignment raises and binds nothing. *)
Definition setattr_variants (value : DataFrame) : M unit :=
  raise (AttributeError "variants").

(** [VCFClass._split_by_samples]. *)
Definition _split_by_samples (columns : list string)
  : M (list (list Cell * VCFClass)) :=
  o <- get_self ;;
  groups <- lift (groupby (sample_info o) columns) ;;
  (fix loop (gs : list (list Cell * DataFrame))
       (split_data : list (list Cell * VCFClass)) {struct gs} :=
     match gs with
     | [] => ret split_data
     | (name, group) :: rest =>
         print (PrKey name) ;;
         tempclass <- setup (_vcf_path o) (Some group) (_sample_id_column o)
                        (_threads o) ;;
         loop rest (key_set name tempclass split_data)
     end) groups [].

(** [VCFClass.split]; a Python [None] result is [None]. *)
Definition split (by_ : string) (columns : list string)
  : M (option (list (list Cell * VCFClass))) :=
  if String.eqb by_ "samples"
  then r <- _split_by_samples columns ;; ret (Some r)
  else if String.eqb by_ "variants"
  then raise (ValueError "Not yet implemented...")
  else ret None.

(** [VCFClass._subset_samples]. *)
Definition _subset_samples (ids : list Cell) : M VCFClass :=
  o <- get_self ;;
  samples <- lift (loc_rows (sample_info o) ids) ;;
  setup (_vcf_path o) (Some samples) (_sample_id_column o) (_threads o).

(** [VCFClass.subset]; a Python [None] result is [None]. *)
Definition subset (what : string) (ids : list Cell) : M (option VCFClass) :=
  if String.eqb what "samples"
  then r <- _subset_samples ids ;; ret (Some r)
  else if String.eqb what "variants"
  then raise (ValueError "Not implemented yet...")
  else ret None.

(** The six statistics of one record, by column. *)
Definition stat_columns : list (string * (Variant -> Cell)) :=
  [("NUM_CALLED", num_called); ("CALL_RATE", call_rate); ("AA_FREQ", aaf);
   ("NUCL_DIVERSITY", nucl_diversity); ("VAR_TYPE", var_type);
   ("VAR_SUBTYPE", var_subtype)].

(** [VCFClass.get_var_stats]. *)
Definition get_var_stats (add_to_info : bool) : M DataFrame :=
  let var_stats : list (string * Dict.t) :=
    map (fun c => (fst c, [])) stat_columns in
  ids <- var_ids ;;
  pairs <- Cyvcf2.zip_iterate ids ;;
  let var_stats :=
    fold_left
      (fun stats (vi : Variant * Cell) =>
         map (fun sc : (string * Dict.t) * (string * (Variant -> Cell)) =>
                (fst (fst sc),
                 Dict.set (snd vi) (snd (snd sc) (fst vi)) (snd (fst sc))))
           (combine stats stat_columns))
      pairs var_stats in
  let var_stats := Dict.to_frame var_stats in
  (if add_to_info
   then
     current <- variants ;;
     merged <- lift (PdJoin.concat_columns current var_stats) ;;
     setattr_variants merged
   else ret tt) ;;
  reset_vcf_iterator ;;
  ret var_stats.

Definition dquote : ascii := "034"%char.

(** [VCFClass.extract_vep_annotations]. *)
Definition extract_vep_annotations (add_to_info : bool) : M DataFrame :=
  table <- variants ;;
  (if negb (cell_in (CStr "CSQ") (df_columns table))
   then raise (ValueError
     "CSQ column not found in variants. This column is required for VEP annotations. Consider parsing VCF with add_info=True")
   else ret tt) ;;
  o <- get_self ;;
  description <- lift (Cyvcf2.header_description (vcf o) "CSQ") ;;
  word <- lift (Py.list_getitem (Str.split " " description) 6) ;;
  let csq_info := Str.split "|" (Str.strip dquote word) in
  table <- variants ;;
  csq <- lift (Pd.getcol table "CSQ") ;;
  let csq_data := Str.explode (Str.series_split "," csq) in
  let vep_annotations := Str.series_split_expand "|" csq_data in
  vep_annotations <- lift (Pd.set_columns vep_annotations csq_info) ;;
  nan <- np_nan ;;
  let vep_annotations := Pd.replace vep_annotations (CStr "") nan in
  vep_annotations <- lift (Pd.reset_index vep_annotations) ;;
  let vep_annotations := Pd.drop_duplicates vep_annotations in
  vep_annotations <- lift (Pd.set_index vep_annotations "ID" true) ;;
  if add_to_info
  then
    table <- variants ;;
    left <- lift (Pd.drop_column table "CSQ") ;;
    ret (PdJoin.merge_on_index left vep_annotations)
  else ret vep_annotations.

End Facade.

(** ** class VCFClass: writing and the genotype matrix *)

(** The files that open as a call set, after one of them changes. *)
Module Disk.

Definition remove (path : string) (d : list (string * VcfFile))
  : list (string * VcfFile) :=
  filter (fun pf => negb (String.eqb path (fst pf))) d.

Definition write (path : string) (f : VcfFile) (d : list (string * VcfFile))
  : list (string * VcfFile) :=
  (path, f) :: remove path d.

End Disk.

Definition set_disk (d : list (string * VcfFile)) : M unit :=
  fun w => (Ok tt, mkWorld (self w) d (trace w) (stdout w) (warnings w)).

Definition get_disk : M (list (string * VcfFile)) :=
  fun w => (Ok (disk w), w).

(** A [cyvcf2.Writer]: where it writes, the header and sample columns of
    its template, and the records written so far. *)
Record Writer : Type := mkWriter {
  writer_path : string;
  writer_header : list (string * string);
  writer_samples : list string;
  writer_records : list Variant
}.

(** [Writer(path, template)]: the file is created at once, empty, so until
    the writer is closed the path does not open as a call set. *)
Definition Writer_open (path : string) (template : VCF) : M Writer :=
  d <- get_disk ;;
  set_disk (Disk.remove path d) ;;
  ret (mkWriter path (file_header (vcf_file template)) (vcf_active template)
         []).

(** [w.write_record(v)]. *)
Definition write_record (wr : Writer) (v : Variant) : Writer :=
  mkWriter (writer_path wr) (writer_header wr) (writer_samples wr)
    (writer_records wr ++ [v])%list.

(** [w.close()]: header and records are on disk. *)
Definition Writer_close (wr : Writer) : M unit :=
  d <- get_disk ;;
  set_disk (Disk.write (writer_path wr)
              (mkVcfFile (writer_header wr) (writer_samples wr)
                 (writer_records wr)) d).

(** The handle moves past one record. *)
Definition advance (rest : list Variant) : M unit :=
  emit [EvRead] ;;
  modify_self (fun o => with_vcf (mkVCF (vcf_file (vcf o)) (vcf_active (vcf o))
                                    rest (vcf_threads (vcf o))) o).

(** [for var in self.vcf: body], with the loop's variables threaded as
    [s]; [recs] is what the handle has pending when the loop starts (the
    bodies here never touch the handle).  An exception in the body leaves
    the handle where it stands. *)
Fixpoint for_records {S} (recs : list Variant) (body : Variant -> S -> M S)
    (s : S) : M S :=
  match recs with
  | [] => ret s
  | v :: rest =>
      advance rest ;;
      s' <- body v s ;;
      for_records rest body s'
  end.

(** [for v, id in zip(self.vcf, ids): body]: the record is read before the
    id is asked for. *)
Fixpoint for_zipped {S} (recs : list Variant) (ids : list Cell)
    (body : Variant -> Cell -> S -> M S) (s : S) : M S :=
  match recs with
  | [] => ret s
  | v :: rest =>
      advance rest ;;
      match ids with
      | [] => ret s
      | i :: ids' =>
          s' <- body v i s ;;
          for_zipped rest ids' body s'
      end
  end.

Section Output.

(** [v.ID = id] (cyvcf2's setter; what it accepts is its own affair). *)
Variable set_ID : Variant -> Cell -> Res Variant.

(** [var.genotypes]: the raw calls of a record for the active samples. *)
Variable raw_calls : Variant -> list string -> list (list Z).

(** [pd.DataFrame(rows, index=..., columns=...)] over genotype objects. *)
Variable GenotypeFrame : Type.
Variable genotype_frame :
  list (list Genotype) -> list Cell -> list string -> Res GenotypeFrame.

(** [VCFClass.save_vcf]; the [samples] argument is never read. *)
Definition save_vcf (save_path : string) (add_ids : bool)
    (var_ids_ : option (list Cell)) : M unit :=
  o <- get_self ;;
  w <- Writer_open save_path (vcf o) ;;
  vars_to_save <- match var_ids_ with
                  | Some l => ret l
                  | None => var_ids
                  end ;;
  ids <- var_ids ;;
  o <- get_self ;;
  w <- for_zipped (vcf_pending (vcf o)) ids
         (fun v id w =>
            if cell_in id vars_to_save
            then
              v <- (if add_ids then lift (set_ID v id) else ret v) ;;
              ret (write_record w v)
            else ret w)
         w ;;
  Writer_close w ;;
  reset_vcf_iterator ;;
  print (PrText ("VCF saved to " ++ save_path)).

(** [VCFClass.show_genotypes]. *)
Definition show_genotypes : M GenotypeFrame :=
  o <- get_self ;;
  genotypes <- for_records (vcf_pending (vcf o))
                 (fun var genotypes =>
                    row <- lift (res_map Genotype_init
                                   (raw_calls var (vcf_active (vcf o)))) ;;
                    ret (genotypes ++ [row])%list)
                 [] ;;
  ids <- var_ids ;;
  o <- get_self ;;
  table <- lift (genotype_frame genotypes ids (samples o)) ;;
  reset_vcf_iterator ;;
  ret table.

End Output.

(** ** Vocabulary of the statements *)

(** The stream a reset leaves: the file reopened at its first record,
    restricted to the facade's samples (the thread count is not set
    again). *)
Definition rewound (f : VcfFile) (samples : list string) : VCF :=
  mkVCF f (filter (fun s => existsb (String.eqb s) samples) (file_samples f))
    (file_records f) None.

(** The stream events of one reset. *)
Definition reset_events (o : VCFClass) : list Event :=
  [EvOpen (_vcf_path o); EvSetSamples (samples o)].

(** One access to [variants] followed by [k] more; the value of the last. *)
Fixpoint variants_again (info_fields : list string) (k : nat)
  : M DataFrame :=
  match k with
  | O => variants info_fields
  | S k' => variants info_fields ;; variants_again info_fields k'
  end.

(** The world a successful reset leaves. *)
Definition after_reset (f : VcfFile) (w : World) : World :=
  mkWorld (with_vcf (rewound f (samples (self w))) (self w)) (disk w)
    (trace w ++ reset_events (self w))%list (stdout w) (warnings w).

(** The table the first access caches: the metadata rows of the records,
    labelled by the ID each record carries. *)
Definition metadata_of (info_fields : list string) (recs : list Variant)
  : DataFrame :=
  mkDataFrame (Some "ID") (map (fun v => Parsing.opt_cell (ID v)) recs)
    (map CStr (Parsing.positional_columns ++ info_fields)%list)
    (map (Parsing.metadata_row info_fields) recs).

(** The world after the first access: the table cached, every pending
    record read, the stream reset. *)
Definition after_build (info_fields : list string) (f : VcfFile) (w : World)
  : World :=
  let recs := vcf_pending (vcf (self w)) in
  mkWorld
    (with_vcf (rewound f (samples (self w)))
       (with_variants (metadata_of info_fields recs) (self w)))
    (disk w)
    (trace w ++ repeat EvRead (List.length recs) ++ reset_events (self w))%list
    (stdout w) (warnings w).

(** The cache holds table [t]. *)
Definition cached (t : DataFrame) (w : World) : Prop :=
  _variants_ (self w) = Some t.

(** A computation that leaves a cached table as it is, however it ends. *)
Definition keeps {A} (t : DataFrame) (m : M A) : Prop :=
  forall w, cached t w -> cached t (snd (m w)).

(** A computation that, run with table [t] cached, ends in an exception
    and leaves the table cached. *)
Definition raises_keeping {A} (t : DataFrame) (m : M A) : Prop :=
  forall w, cached t w ->
    exists e w', m w = (Raise e, w') /\ cached t w'.

(** A computation that ends in an exception in every world. *)
Definition never_returns {A} (m : M A) : Prop :=
  forall w, exists e w', m w = (Raise e, w').

(** A computation that writes nothing the caller could see as a message:
    no warning, no output. *)
Definition quiet {A} (m : M A) : Prop :=
  forall w, warnings (snd (m w)) = warnings w /\ stdout (snd (m w)) = stdout w.

(** The world once the handle has read [n] more records and has [rest]
    still to come. *)
Definition consumed (n : nat) (rest : list Variant) (w : World) : World :=
  mkWorld
    (with_vcf (mkVCF (vcf_file (vcf (self w))) (vcf_active (vcf (self w)))
                 rest (vcf_threads (vcf (self w)))) (self w))
    (disk w) (trace w ++ repeat EvRead n)%list (stdout w) (warnings w).

(** Every row of a table is as wide as its header and has its label. *)
Definition rectangular (df : DataFrame) : Prop :=
  Forall (fun r => List.length r = List.length (df_columns df)) (df_rows df)
  /\ List.length (df_rows df) = List.length (df_index df).

(** The row of the six statistics of one record. *)
Definition stats_row (v : Variant) : list Cell :=
  map (fun c : string * (Variant -> Cell) => snd c v) stat_columns.

(** The dict of dicts of [get_var_stats] once its loop has seen [pairs],
    when no ID repeats: under each column, the value of each record by its
    ID. *)
Definition gathered (cols : list (string * (Variant -> Cell)))
    (pairs : list (Variant * Cell)) : list (string * Dict.t) :=
  map (fun c : string * (Variant -> Cell) =>
         (fst c, map (fun p : Variant * Cell => (snd p, snd c (fst p))) pairs))
    cols.

(** Facade [o] is what [setup] makes of file [f] and sample table
    [table] on behalf of [parent]: the parent's path, sample-id column and
    thread count; nothing cached; its own handle at the first record; the
    table's rows, keyed by the sample-id column; and as roster the samples
    of the file that the table names. *)
Definition sub_facade_of (parent : VCFClass) (f : VcfFile)
    (table : DataFrame) (o : VCFClass) : Prop :=
  _vcf_path o = _vcf_path parent /\
  _sample_id_column o = _sample_id_column parent /\
  _threads o = _threads parent /\
  _variants_ o = None /\ _var_ids_ o = None /\ _var_info_ o = None /\
  vcf_pending (vcf o) = file_records f /\
  vcf_threads (vcf o) = Some (_threads parent) /\
  df_rows (sample_info o) = df_rows table /\
  samples o = vcf_active (vcf o) /\
  forall s, In s (samples o) <->
            In s (file_samples f) /\ In (CStr s) (df_index (sample_info o)).

(** The loop of [_split_by_samples], by name: [o] is the facade split,
    [split_data] the dict so far. *)
Definition split_loop (o : VCFClass)
  : list (list Cell * DataFrame) -> list (list Cell * VCFClass) ->
    M (list (list Cell * VCFClass)) :=
  fix loop (gs : list (list Cell * DataFrame))
      (split_data : list (list Cell * VCFClass)) {struct gs} :=
    match gs with
    | [] => ret split_data
    | (name, group) :: rest =>
        print (PrKey name) ;;
        tempclass <- setup (_vcf_path o) (Some group) (_sample_id_column o)
                       (_threads o) ;;
        loop rest (key_set name tempclass split_data)
    end.

(** The dict has an entry under a key equal to [key]. *)
Definition has_key {V} (key : list Cell) (d : list (list Cell * V)) : bool :=
  existsb (fun kv => row_eqb key (fst kv)) d.

(** The genotype a well-formed raw call decodes to. *)
Definition decode_call (call : list Z) : Genotype :=
  mkGenotype (removelast call) (last call 0).

(** ** A small call set used in the examples *)

Module Fixture.

Definition record (id : string) (pos : Z) (csq : string) : Variant :=
  mkVariant "1" pos (Some id) "A" ["T"] (CFloat 30) CNone ["GT"]
    [("CSQ", csq)] (CInt 2) (CFloat 1) (CFloat (1 # 2)) (CFloat (1 # 2))
    (CStr "snp") (CStr "ts").

(** The header line of the annotation field: its seventh word lists the
    sub-fields. *)
Definition csq_description : string :=
  String dquote
    ("Consequence annotations from Ensembl VEP. Format: Gene|Rank"
     ++ String dquote EmptyString).

Definition annotated : VcfFile :=
  mkVcfFile [("CSQ", csq_description)] ["s1"; "s2"]
    [record "rs1" 100 "A|1,B|2"].

(** Two records under one ID. *)
Definition clashing : VcfFile :=
  mkVcfFile [("CSQ", csq_description)] ["s1"; "s2"]
    [record "rs1" 100 "A|1"; record "rs1" 200 "B|2"].

Definition files : list (string * VcfFile) :=
  [("annotated.vcf", annotated); ("clashing.vcf", clashing)].

Definition roster : DataFrame :=
  mkDataFrame (Some "sample") [CStr "s1"; CStr "s2"] [CStr "sample"]
    [[CStr "s1"]; [CStr "s2"]].

(** The facade [setup(path)] returns, in a world where nothing has
    happened yet. *)
Definition fresh (path : string) (f : VcfFile) : World :=
  mkWorld
    (VCFClass_init (mkVCF f (file_samples f) (file_records f) (Some 1)) path
       roster
       "sample" (file_samples f) 1)
    files [] [] [].

(** The same facade once [variants] has been read. *)
Definition built (info_fields : list string) (path : string) (f : VcfFile)
  : World :=
  snd (variants info_fields (fresh path f)).

(** One group per sample of the roster, as a grouping by the sample-id
    column gives. *)
Definition groups : list (list Cell * DataFrame) :=
  [([CStr "s1"],
    mkDataFrame (Some "sample") [CStr "s1"] [CStr "sample"] [[CStr "s1"]]);
   ([CStr "s2"],
    mkDataFrame (Some "sample") [CStr "s2"] [CStr "sample"] [[CStr "s2"]])].

Definition by_sample (table : DataFrame) (columns : list string)
  : Res (list (list Cell * DataFrame)) :=
  Ok groups.

End Fixture.

(** * Properties *)

(** ** Genotype codec *)

Section GenotypeFacts.

Lemma list_getitem_last (al : list Z) (ph : Z) :
  Py.list_getitem (al ++ [ph])%list (-1) = Ok ph.
Proof.
  unfold Py.list_getitem.
  rewrite length_app; simpl List.length.
  replace (-1 <? 0) with true by reflexivity.
  assert (Hj : -1 + Z.of_nat (List.length al + 1) = Z.of_nat (List.length al))
    by lia.
  rewrite Hj.
  replace (Z.of_nat (List.length al) <? 0) with false
    by (symmetry; apply Z.ltb_ge; lia).
  replace (Z.of_nat (List.length al + 1) <=? Z.of_nat (List.length al))
    with false by (symmetry; apply Z.leb_gt; lia).
  simpl orb. cbv iota.
  rewrite Nat2Z.id, nth_error_app2 by lia.
  now rewrite Nat.sub_diag.
Qed.

Lemma Genotype_codec_unfold (al : list Z) (ph : Z) :
  Genotype_codec (al ++ [ph])%list =
  res_bind (Py.str_getitem "/|" ph) (fun sep =>
  res_bind (res_map (fun a => Py.str_getitem "0123." a) al)
    (fun symbols => Ok (Py.join sep symbols))).
Proof.
  unfold Genotype_codec, Genotype_init, Py.list_init.
  rewrite list_getitem_last, removelast_last.
  reflexivity.
Qed.

Lemma str_getitem_only_IndexError (s : string) (i : Z) (e : PyExc) :
  Py.str_getitem s i = Raise e -> e = IndexError.
Proof.
  unfold Py.str_getitem.
  destruct (_ || _); [congruence |].
  destruct (String.get _ s); congruence.
Qed.

Lemma separator_of_flag (ph : bool) :
  Py.str_getitem "/|" (Z.b2z ph) = Ok (phase_sep ph).
Proof. destruct ph; reflexivity. Qed.

Lemma symbol_in_table (a : Z) :
  -1 <= a <= 4 -> Py.str_getitem "0123." a = Ok (allele_symbol a).
Proof.
  intros Ha.
  assert (Hc : a = -1 \/ a = 0 \/ a = 1 \/ a = 2 \/ a = 3 \/ a = 4) by lia.
  repeat (destruct Hc as [-> | Hc]; [reflexivity |]).
  subst a; reflexivity.
Qed.

Lemma digit_is_symbol (a : Z) : 0 <= a <= 3 -> allele_symbol a = digit_str a.
Proof.
  intros Ha. unfold allele_symbol.
  replace (a =? -1) with false by (symmetry; apply Z.eqb_neq; lia).
  replace (a =? 4) with false by (symmetry; apply Z.eqb_neq; lia).
  reflexivity.
Qed.

Lemma symbols_in_table (al : list Z) :
  Forall (fun a => -1 <= a <= 4) al ->
  res_map (fun a => Py.str_getitem "0123." a) al = Ok (map allele_symbol al).
Proof.
  induction 1 as [| a al Ha _ IH]; simpl.
  - reflexivity.
  - rewrite (symbol_in_table a Ha); simpl. now rewrite IH.
Qed.

Lemma index_past_table (a : Z) :
  5 <= a -> Py.str_getitem "0123." a = Raise IndexError.
Proof.
  intros Ha. unfold Py.str_getitem. simpl String.length.
  replace (a <? 0) with false by (symmetry; apply Z.ltb_ge; lia).
  replace (Z.of_nat 5 <=? a) with true by (symmetry; apply Z.leb_le; lia).
  now rewrite orb_true_r.
Qed.

Lemma symbols_past_table (al : list Z) :
  Exists (fun a => 5 <= a) al ->
  res_map (fun a => Py.str_getitem "0123." a) al = Raise IndexError.
Proof.
  induction 1 as [a al Ha | a al _ IH]; simpl.
  - now rewrite (index_past_table a Ha).
  - destruct (Py.str_getitem "0123." a) as [c | e] eqn:E; simpl.
    + now rewrite IH.
    + now rewrite (str_getitem_only_IndexError _ _ _ E).
Qed.

End GenotypeFacts.

(** C1 (as the code has it).  A raw call whose allele slots hold a symbol
    index [0..3], the reader's missing marker [-1], or [4], encodes without
    raising, and each slot holding [-1] or [4] shows as the dot; a raw call
    with a slot holding [5] or more raises [IndexError]. *)
Theorem Genotype_codec_missing_marker (al : list Z) (ph : bool) :
  (Forall (fun a => -1 <= a <= 4) al ->
   Genotype_codec (al ++ [Z.b2z ph])%list =
   Ok (Py.join (phase_sep ph) (map allele_symbol al))) /\
  (Exists (fun a => 5 <= a) al ->
   Genotype_codec (al ++ [Z.b2z ph])%list = Raise IndexError).
Proof.
  rewrite Genotype_codec_unfold, separator_of_flag. simpl res_bind.
  split; intros H.
  - now rewrite (symbols_in_table al H).
  - now rewrite (symbols_past_table al H).
Qed.

Lemma Genotype_codec_missing_marker_witness :
  Genotype_codec [2; -1; 1] = Ok "2|." /\
  Genotype_codec [2; 5; 1] = Raise IndexError.
Proof.
  split.
  - apply (proj1 (Genotype_codec_missing_marker [2; -1] true)).
    repeat constructor; lia.
  - apply (proj2 (Genotype_codec_missing_marker [2; 5] true)).
    apply Exists_cons_tl, Exists_cons_hd. lia.
Defined.

(** C1 as stated fails: the raw call [[2, 5, 1]] does not encode to
    ["2|."], it raises [IndexError]. *)
Lemma Genotype_codec_index_5_raises :
  Genotype_codec [2; 5; 1] = Raise IndexError /\
  Genotype_codec [2; 5; 1] <> Ok "2|.".
Proof. split; [reflexivity | discriminate]. Qed.

(** C6.  A raw call whose allele indices all lie in [0..3] encodes to the
    allele digits joined by the bar when the phase flag is true and by the
    slash when it is false. *)
Theorem Genotype_codec_valid_alleles (al : list Z) (ph : bool) :
  Forall (fun a => 0 <= a <= 3) al ->
  Genotype_codec (al ++ [Z.b2z ph])%list =
  Ok (Py.join (if ph then "|" else "/") (map digit_str al)).
Proof.
  intros H.
  rewrite Genotype_codec_unfold, separator_of_flag. simpl res_bind.
  rewrite symbols_in_table
    by (eapply Forall_impl; [| exact H]; simpl; intros; lia).
  unfold phase_sep. simpl res_bind. do 2 f_equal.
  apply map_ext_in. intros a Ha. apply digit_is_symbol.
  rewrite Forall_forall in H. now apply H.
Qed.

Lemma Genotype_codec_valid_alleles_witness :
  Genotype_codec [0; 1; 1] = Ok "0|1" /\
  Genotype_codec [1; 1; 0] = Ok "1/1".
Proof.
  split.
  - apply (Genotype_codec_valid_alleles [0; 1] true).
    repeat constructor; lia.
  - apply (Genotype_codec_valid_alleles [1; 1] false).
    repeat constructor; lia.
Defined.

(** ** Sequencing *)

Section Sequencing.

Context {A B : Type}.

Lemma bind_ok (m : M A) (k : A -> M B) (w w' : World) (a : A) :
  m w = (Ok a, w') -> bind m k w = k a w'.
Proof. unfold bind. now intros ->. Qed.

Lemma bind_raise (m : M A) (k : A -> M B) (w w' : World) (e : PyExc) :
  m w = (Raise e, w') -> bind m k w = (Raise e, w').
Proof. unfold bind. now intros ->. Qed.

Lemma never_returns_first (m : M A) (k : A -> M B) :
  never_returns m -> never_returns (bind m k).
Proof.
  intros Hm w. destruct (Hm w) as (e & w' & E).
  exists e, w'. now apply bind_raise.
Qed.

Lemma never_returns_then (m : M A) (k : A -> M B) :
  (forall a, never_returns (k a)) -> never_returns (bind m k).
Proof.
  intros Hk w. unfold bind.
  destruct (m w) as [[a | e] w'].
  - apply Hk.
  - now exists e, w'.
Qed.

Lemma keeps_bind (t : DataFrame) (m : M A) (k : A -> M B) :
  keeps t m -> (forall a, keeps t (k a)) -> keeps t (bind m k).
Proof.
  intros Hm Hk w Hc. unfold bind.
  specialize (Hm w Hc).
  destruct (m w) as [[a | e] w']; simpl in *.
  - now apply Hk.
  - exact Hm.
Qed.

Lemma raises_keeping_first (t : DataFrame) (m : M A) (k : A -> M B) :
  raises_keeping t m -> raises_keeping t (bind m k).
Proof.
  intros Hm w Hc. destruct (Hm w Hc) as (e & w' & E & Hc').
  exists e, w'. split; [now apply bind_raise | exact Hc'].
Qed.

Lemma raises_keeping_then (t : DataFrame) (m : M A) (k : A -> M B) :
  keeps t m -> (forall a, raises_keeping t (k a)) ->
  raises_keeping t (bind m k).
Proof.
  intros Hm Hk w Hc. unfold bind.
  specialize (Hm w Hc).
  destruct (m w) as [[a | e] w']; simpl in *.
  - now apply Hk.
  - now exists e, w'.
Qed.

End Sequencing.

Section Frames.

Variable t : DataFrame.

Lemma keeps_ret {A} (a : A) : keeps t (ret a).
Proof. now intros w Hc. Qed.

Lemma keeps_raise {A} (e : PyExc) : keeps t (@raise A e).
Proof. now intros w Hc. Qed.

Lemma keeps_lift {A} (r : Res A) : keeps t (lift r).
Proof. now intros w Hc. Qed.

Lemma keeps_get_self : keeps t get_self.
Proof. now intros w Hc. Qed.

Lemma keeps_emit (evs : list Event) : keeps t (emit evs).
Proof. now intros w Hc. Qed.

Lemma keeps_with_vcf (v : VCF) : keeps t (modify_self (with_vcf v)).
Proof. now intros w Hc. Qed.

Lemma keeps_with_var_ids (l : list Cell) :
  keeps t (modify_self (with_var_ids l)).
Proof. now intros w Hc. Qed.

Lemma keeps_VCF_open (path : string) : keeps t (Cyvcf2.VCF_open path).
Proof.
  intros w Hc. unfold Cyvcf2.VCF_open.
  now destruct (lookup_str path (disk w)).
Qed.

Lemma keeps_set_samples (v : VCF) (l : list string) :
  keeps t (Cyvcf2.set_samples v l).
Proof. now intros w Hc. Qed.

Lemma keeps_getattr {A} (name : string) (field : VCFClass -> option A) :
  keeps t (getattr name field).
Proof.
  intros w Hc. unfold getattr, bind, get_self.
  now destruct (field (self w)).
Qed.

Lemma keeps_reset : keeps t reset_vcf_iterator.
Proof.
  unfold reset_vcf_iterator.
  apply keeps_bind; [apply keeps_get_self | intros o].
  apply keeps_bind; [apply keeps_VCF_open | intros v].
  apply keeps_bind; [apply keeps_with_vcf | intros _].
  apply keeps_bind; [apply keeps_get_self | intros o'].
  apply keeps_bind; [apply keeps_set_samples | intros v'].
  apply keeps_with_vcf.
Qed.

Lemma keeps_zip_iterate (ids : list Cell) : keeps t (Cyvcf2.zip_iterate ids).
Proof.
  intros w Hc. unfold Cyvcf2.zip_iterate, bind, get_self.
  now destruct (Cyvcf2.zip_records _ ids) as [pairs [n rest]].
Qed.

Lemma keeps_var_ids : keeps t var_ids.
Proof.
  unfold var_ids.
  apply keeps_bind; [apply keeps_getattr | intros table].
  apply keeps_bind; [apply keeps_with_var_ids | intros _].
  apply keeps_getattr.
Qed.

(** With a table cached, [variants] does not build: it resets the stream
    and hands the table back. *)
Lemma variants_when_built (info_fields : list string) (w : World) :
  cached t w ->
  variants info_fields w =
  (reset_vcf_iterator ;; getattr "_variants_" _variants_) w.
Proof.
  intros Hc. unfold variants.
  unfold bind at 1, get_self at 1.
  unfold cached in Hc. rewrite Hc.
  reflexivity.
Qed.

Lemma keeps_variants (info_fields : list string) :
  keeps t (variants info_fields).
Proof.
  intros w Hc. rewrite (variants_when_built info_fields w Hc).
  revert w Hc.
  change (keeps t (reset_vcf_iterator ;; getattr "_variants_" _variants_)).
  apply keeps_bind; [apply keeps_reset | intros _; apply keeps_getattr].
Qed.

End Frames.

(** ** The lazy metadata cache *)

Section Cache.

Variable info_fields : list string.

Lemma reset_outcome (w : World) (f : VcfFile) :
  lookup_str (_vcf_path (self w)) (disk w) = Some f ->
  reset_vcf_iterator w = (Ok tt, after_reset f w).
Proof.
  intros Hf.
  unfold reset_vcf_iterator, bind, get_self, Cyvcf2.VCF_open.
  rewrite Hf. simpl.
  unfold after_reset, reset_events. simpl.
  now rewrite <- app_assoc.
Qed.

Lemma variants_built_outcome (w : World) (t : DataFrame) (f : VcfFile) :
  cached t w ->
  lookup_str (_vcf_path (self w)) (disk w) = Some f ->
  variants info_fields w = (Ok t, after_reset f w).
Proof.
  intros Hc Hf.
  rewrite (variants_when_built t info_fields w Hc).
  rewrite (bind_ok _ _ _ _ _ (reset_outcome w f Hf)).
  unfold getattr, bind, get_self. simpl.
  unfold cached in Hc. now rewrite Hc.
Qed.

Lemma metadata_ids (recs : list Variant) :
  map (fun r => nth 2 r CNaN) (map (Parsing.metadata_row info_fields) recs) =
  map (fun v => Parsing.opt_cell (ID v)) recs.
Proof. rewrite map_map. now apply map_ext. Qed.

Lemma variants_first_outcome (w : World) (f : VcfFile) :
  _variants_ (self w) = None ->
  lookup_str (_vcf_path (self w)) (disk w) = Some f ->
  variants info_fields w =
  (Ok (metadata_of info_fields (vcf_pending (vcf (self w)))),
   after_build info_fields f w).
Proof.
  intros Hn Hf.
  unfold variants. unfold bind at 1, get_self at 1. rewrite Hn.
  unfold Parsing.get_variants_metadata, Cyvcf2.iterate, Pd.getcol,
    Pd.set_index, expr_stmt, bind, get_self, lift, ret, emit, modify_self.
  simpl.
  destruct (Pd.any_duplicated _); simpl;
    unfold reset_vcf_iterator, Cyvcf2.VCF_open, bind, get_self; simpl;
    rewrite Hf; simpl;
    unfold after_build, metadata_of, reset_events; simpl;
    rewrite metadata_ids, <- !app_assoc; reflexivity.
Qed.


Lemma reads_app (l1 l2 : list Event) :
  reads (l1 ++ l2) = (reads l1 + reads l2)%nat.
Proof. unfold reads. now rewrite filter_app, length_app. Qed.

Lemma reads_repeat_read (n : nat) : reads (repeat EvRead n) = n.
Proof. unfold reads. induction n; simpl; [reflexivity | now rewrite IHn]. Qed.

Lemma reads_resets (o : VCFClass) (n : nat) :
  reads (List.concat (repeat (reset_events o) n)) = O.
Proof. unfold reads. induction n; simpl; [reflexivity | exact IHn]. Qed.

(** What [n] resets in a row change, and what they leave alone. *)
Lemma resets_in_a_row (f : VcfFile) (w : World) (n : nat) :
  let wn := Nat.iter n (after_reset f) w in
  _variants_ (self wn) = _variants_ (self w) /\
  _vcf_path (self wn) = _vcf_path (self w) /\
  samples (self wn) = samples (self w) /\
  disk wn = disk w /\
  trace wn = (trace w ++ List.concat (repeat (reset_events (self w)) n))%list /\
  (n <> O -> vcf (self wn) = rewound f (samples (self w))).
Proof.
  induction n as [| n IH]; simpl.
  - rewrite app_nil_r. now repeat split.
  - destruct IH as (Hv & Hp & Hs & Hd & Ht & _).
    repeat split; simpl; try assumption.
    + rewrite Ht. unfold reset_events. rewrite Hp, Hs.
      rewrite <- app_assoc. f_equal.
      clear. induction n; simpl; [reflexivity | now rewrite <- IHn].
    + intros _. now rewrite Hs.
Qed.

Lemma variants_again_built (t : DataFrame) (f : VcfFile) (k : nat) :
  forall w,
    cached t w ->
    lookup_str (_vcf_path (self w)) (disk w) = Some f ->
    variants_again info_fields k w =
    (Ok t, Nat.iter (S k) (after_reset f) w).
Proof.
  induction k as [| k IH]; intros w Hc Hf.
  - now apply variants_built_outcome.
  - change (variants_again info_fields (S k))
      with (variants info_fields ;; variants_again info_fields k).
    rewrite (bind_ok _ _ _ _ _ (variants_built_outcome w t f Hc Hf)).
    rewrite IH by assumption.
    now rewrite <- Nat.iter_succ_r.
Qed.

End Cache.

(** C7.  Reading [variants] once and then [k] more times returns, each
    time, the table the first access returned, still cached; the stream is
    read on the first access only, and then only if nothing was cached;
    every access ends with the stream reopened and restricted to the
    facade's samples. *)
Theorem variants_cached_and_reset (info_fields : list string) (w : World)
    (f : VcfFile) (k : nat) :
  lookup_str (_vcf_path (self w)) (disk w) = Some f ->
  exists t w1 wk,
    variants info_fields w = (Ok t, w1) /\
    variants_again info_fields k w = (Ok t, wk) /\
    cached t w1 /\ cached t wk /\
    reads (trace w1) =
      (reads (trace w)
       + match _variants_ (self w) with
         | None => List.length (vcf_pending (vcf (self w)))
         | Some _ => O
         end)%nat /\
    reads (trace wk) = reads (trace w1) /\
    trace wk = (trace w1 ++ List.concat (repeat (reset_events (self w)) k))%list /\
    (exists before, trace w1 = (before ++ reset_events (self w))%list) /\
    vcf (self w1) = rewound f (samples (self w)) /\
    vcf (self wk) = rewound f (samples (self w)).
Proof.
  intros Hf.
  assert (H1 : exists t w1,
             variants info_fields w = (Ok t, w1) /\ cached t w1 /\
             _vcf_path (self w1) = _vcf_path (self w) /\
             samples (self w1) = samples (self w) /\
             disk w1 = disk w /\
             reads (trace w1) =
               (reads (trace w)
                + match _variants_ (self w) with
                  | None => List.length (vcf_pending (vcf (self w)))
                  | Some _ => O
                  end)%nat /\
             (exists before,
                 trace w1 = (before ++ reset_events (self w))%list) /\
             vcf (self w1) = rewound f (samples (self w))).
  { destruct (_variants_ (self w)) as [t |] eqn:Hc.
    - exists t, (after_reset f w).
      split; [now apply variants_built_outcome |].
      repeat split; try assumption.
      + unfold after_reset; simpl. rewrite reads_app. reflexivity.
      + now exists (trace w).
    - eexists _, (after_build info_fields f w).
      split; [now apply variants_first_outcome |].
      repeat split.
      + unfold after_build; simpl.
        rewrite !reads_app, reads_repeat_read.
        change (reads (reset_events (self w))) with O. lia.
      + eexists. unfold after_build; simpl. now rewrite app_assoc. }
  destruct H1 as (t & w1 & E1 & Hc1 & Hp & Hs & Hd & Hr & Hsuf & Hv).
  assert (Hf1 : lookup_str (_vcf_path (self w1)) (disk w1) = Some f)
    by now rewrite Hp, Hd.
  destruct k as [| k].
  - exists t, w1, w1. simpl. rewrite app_nil_r. now repeat split.
  - exists t, w1, (Nat.iter (S k) (after_reset f) w1).
    destruct (resets_in_a_row f w1 (S k))
      as (Hv' & _ & _ & _ & Ht & Hvcf).
    split; [exact E1 |].
    split.
    { change (variants_again info_fields (S k))
        with (variants info_fields ;; variants_again info_fields k).
      rewrite (bind_ok _ _ _ _ _ E1).
      now apply variants_again_built. }
    split; [exact Hc1 |].
    split; [unfold cached in *; now rewrite Hv' |].
    split; [exact Hr |].
    split; [rewrite Ht, reads_app, reads_resets; lia |].
    split.
    { rewrite Ht. unfold reset_events. now rewrite Hp, Hs. }
    split; [exact Hsuf |].
    split; [exact Hv |].
    rewrite Hvcf by discriminate. now rewrite Hs.
Qed.

Lemma variants_cached_and_reset_witness :
  exists t w1 wk,
    variants [] (Fixture.fresh "annotated.vcf" Fixture.annotated)
      = (Ok t, w1) /\
    variants_again [] 2 (Fixture.fresh "annotated.vcf" Fixture.annotated)
      = (Ok t, wk) /\
    cached t w1 /\ cached t wk /\
    reads (trace w1) = 1%nat /\
    reads (trace wk) = reads (trace w1) /\
    trace wk =
      (trace w1
       ++ [EvOpen "annotated.vcf"; EvSetSamples ["s1"; "s2"];
           EvOpen "annotated.vcf"; EvSetSamples ["s1"; "s2"]])%list /\
    (exists before,
        trace w1 =
        (before ++ [EvOpen "annotated.vcf"; EvSetSamples ["s1"; "s2"]])%list)
    /\
    vcf (self w1) = rewound Fixture.annotated ["s1"; "s2"] /\
    vcf (self wk) = rewound Fixture.annotated ["s1"; "s2"].
Proof.
  apply (variants_cached_and_reset []
           (Fixture.fresh "annotated.vcf" Fixture.annotated)
           Fixture.annotated 2).
  reflexivity.
Defined.

(** ** Dispatch on the mode string *)

(** C8.  [split(by="variants")] and [subset(what="variants")] raise a
    [ValueError] whose message says the mode is not implemented; nothing is
    returned and nothing is done. *)
Theorem by_variants_not_implemented
    (groupby : DataFrame -> list string -> Res (list (list Cell * DataFrame)))
    (w : World) (columns : list string) (ids : list Cell) :
  split groupby "variants" columns w =
    (Raise (ValueError "Not yet implemented..."), w) /\
  subset "variants" ids w =
    (Raise (ValueError "Not implemented yet..."), w).
Proof. split; reflexivity. Qed.

(** C9.  With a mode string that is neither ["samples"] nor ["variants"],
    [split] and [subset] return [None]: no error, no work. *)
Theorem unrecognised_mode_returns_None
    (groupby : DataFrame -> list string -> Res (list (list Cell * DataFrame)))
    (w : World) (mode : string) (columns : list string) (ids : list Cell) :
  mode <> "samples" -> mode <> "variants" ->
  split groupby mode columns w = (Ok None, w) /\
  subset mode ids w = (Ok None, w).
Proof.
  intros Hs Hv. unfold split, subset.
  apply String.eqb_neq in Hs, Hv. rewrite Hs, Hv.
  split; reflexivity.
Qed.

Lemma unrecognised_mode_returns_None_witness :
  let w := Fixture.fresh "annotated.vcf" Fixture.annotated in
  split (fun _ _ => Ok []) "foo" [] w = (Ok None, w) /\
  subset "foo" [] w = (Ok None, w).
Proof.
  apply (unrecognised_mode_returns_None (fun _ _ => Ok [])
           (Fixture.fresh "annotated.vcf" Fixture.annotated) "foo" [] []);
    discriminate.
Defined.

(** ** Variant IDs before the metadata *)

Lemma setup_leaves_cache_unbuilt (path : string) (table : option DataFrame)
    (column : string) (threads : Z) (w w' : World) (o : VCFClass) :
  setup path table column threads w = (Ok o, w') ->
  _variants_ o = None /\ _var_ids_ o = None /\ _var_info_ o = None.
Proof.
  unfold setup, bind.
  destruct (Parsing.setup_samples_and_vcf path table column w)
    as [[sv | e] w1]; [| discriminate].
  intros [= <- _]. now repeat split.
Qed.

(** The facade the examples start from is the one [setup] returns. *)
Example setup_builds_fresh_facade (w : World) :
  disk w = Fixture.files ->
  fst (setup "annotated.vcf" None "sample" 1 w) =
  Ok (self (Fixture.fresh "annotated.vcf" Fixture.annotated)).
Proof.
  intros Hd.
  unfold setup, Parsing.setup_samples_and_vcf, Cyvcf2.VCF_open, bind.
  rewrite Hd. reflexivity.
Qed.

(** C4 (what the code does).  On a facade as [__init__] leaves it, reading
    [var_ids] raises [AttributeError] for [_variants_]: no record is read,
    no table is built, the stream is not reset. *)
Theorem var_ids_before_variants_raises (v : VCF) (path : string)
    (table : DataFrame) (column : string) (roster : list string)
    (threads : Z) (files : list (string * VcfFile)) (tr : list Event)
    (out : list Printed) (warned : list string) :
  let w := mkWorld (VCFClass_init v path table column roster threads)
             files tr out warned in
  var_ids w = (Raise (AttributeError "_variants_"), w).
Proof. reflexivity. Qed.

(** The sibling path: once [variants] has been read, [var_ids] returns the
    IDs in stream order. *)
Example var_ids_after_variants :
  fst (var_ids (Fixture.built [] "clashing.vcf" Fixture.clashing)) =
  Ok [CStr "rs1"; CStr "rs1"].
Proof. reflexivity. Qed.

(** ** Duplicate IDs *)

Section Quiet.

Lemma quiet_bind {A B} (m : M A) (k : A -> M B) :
  quiet m -> (forall a, quiet (k a)) -> quiet (bind m k).
Proof.
  intros Hm Hk w. unfold bind.
  specialize (Hm w).
  destruct (m w) as [[a | e] w']; simpl in *.
  - destruct (Hk a w') as [Hw Ho], Hm as [Hw' Ho'].
    split; congruence.
  - exact Hm.
Qed.

Lemma quiet_pure {A} (r : Res A) : quiet (lift r).
Proof. now intros w. Qed.

Lemma quiet_modify (g : VCFClass -> VCFClass) : quiet (modify_self g).
Proof. now intros w. Qed.

Lemma quiet_emit (evs : list Event) : quiet (emit evs).
Proof. now intros w. Qed.

Lemma quiet_getattr {A} (name : string) (field : VCFClass -> option A) :
  quiet (getattr name field).
Proof.
  intros w. unfold getattr, bind, get_self.
  now destruct (field (self w)).
Qed.

Lemma quiet_open (path : string) : quiet (Cyvcf2.VCF_open path).
Proof.
  intros w. unfold Cyvcf2.VCF_open.
  now destruct (lookup_str path (disk w)).
Qed.

Lemma quiet_reset : quiet reset_vcf_iterator.
Proof.
  unfold reset_vcf_iterator.
  apply quiet_bind; [now intros w | intros o].
  apply quiet_bind; [apply quiet_open | intros v].
  apply quiet_bind; [apply quiet_modify | intros _].
  apply quiet_bind; [now intros w | intros o'].
  apply quiet_bind; [now intros w | intros v'].
  apply quiet_modify.
Qed.

Lemma quiet_iterate : quiet Cyvcf2.iterate.
Proof. now intros w. Qed.

Lemma quiet_duplicate_check (vals : list Cell) :
  quiet (if Pd.any_duplicated vals
         then expr_stmt (Warning duplicate_ids_message)
         else ret tt).
Proof. destruct (Pd.any_duplicated vals); now intros w. Qed.

Lemma quiet_variants (info_fields : list string) :
  quiet (variants info_fields).
Proof.
  unfold variants.
  apply quiet_bind; [now intros w | intros o].
  apply quiet_bind.
  - destruct (_variants_ o); [now intros w |].
    apply quiet_bind; [| intros var_metadata].
    { unfold Parsing.get_variants_metadata.
      apply quiet_bind; [apply quiet_iterate | now intros recs w]. }
    apply quiet_bind; [apply quiet_pure | intros ids].
    apply quiet_bind; [apply quiet_duplicate_check | intros _].
    apply quiet_bind; [apply quiet_pure | intros indexed].
    apply quiet_modify.
  - intros _. apply quiet_bind; [apply quiet_reset | intros _].
    apply quiet_getattr.
Qed.

Lemma quiet_var_ids : quiet var_ids.
Proof.
  unfold var_ids.
  apply quiet_bind; [apply quiet_getattr | intros table].
  apply quiet_bind; [apply quiet_modify | intros _].
  apply quiet_getattr.
Qed.

Lemma quiet_var_info : quiet var_info.
Proof.
  unfold var_info.
  apply quiet_bind; [now intros w | intros o].
  apply quiet_bind.
  - destruct (_var_info_ o); [now intros w |].
    apply quiet_bind; [| intros info].
    { unfold Parsing.get_variants_info.
      apply quiet_bind; [apply quiet_iterate | now intros recs w]. }
    apply quiet_bind; [apply quiet_var_ids | intros ids].
    apply quiet_bind; [apply quiet_pure | intros info'].
    apply quiet_bind; [apply quiet_pure | intros col].
    apply quiet_bind; [apply quiet_duplicate_check | intros _].
    apply quiet_bind; [apply quiet_pure | intros indexed].
    apply quiet_modify.
  - intros _. apply quiet_bind; [apply quiet_reset | intros _].
    apply quiet_getattr.
Qed.

End Quiet.

(** C5 (what the code does).  Building the metadata, through [variants] or
    through [var_info], never issues a warning and never prints: the
    [Warning] the duplicate check builds is dropped.  On a stream of two
    records under one ID the table is built, cached and returned with both
    rows under that ID, and nothing tells the caller. *)
Theorem duplicate_ids_build_is_silent (info_fields : list string) :
  quiet (variants info_fields) /\ quiet var_info /\
  let w := Fixture.fresh "clashing.vcf" Fixture.clashing in
  exists t w',
    variants info_fields w = (Ok t, w') /\
    df_index t = [CStr "rs1"; CStr "rs1"] /\
    Pd.any_duplicated (df_index t) = true /\
    cached t w' /\
    warnings w' = [] /\ stdout w' = [].
Proof.
  split; [apply quiet_variants |].
  split; [apply quiet_var_info |].
  intros w.
  eexists _, _. split.
  - apply (variants_first_outcome info_fields w Fixture.clashing);
      reflexivity.
  - now repeat split.
Qed.

(** ** Statistics merged into the metadata *)

Lemma setattr_variants_raises (t value : DataFrame) :
  raises_keeping t (setattr_variants value).
Proof.
  intros w Hc. now exists (AttributeError "variants"), w.
Qed.

Lemma get_var_stats_merge_raises (info_fields : list string)
    (t : DataFrame) :
  raises_keeping t (get_var_stats info_fields true).
Proof.
  unfold get_var_stats. cbv zeta.
  apply raises_keeping_then; [apply keeps_var_ids | intros ids].
  apply raises_keeping_then; [apply keeps_zip_iterate | intros pairs].
  apply raises_keeping_first.
  apply raises_keeping_then; [apply keeps_variants | intros current].
  apply raises_keeping_then; [apply keeps_lift | intros merged].
  apply setattr_variants_raises.
Qed.

(** C2 (what the code does).  With the metadata built,
    [get_var_stats(add_to_info=True)] never returns the statistics: it
    ends in an exception and the cached table is the one it was.  On the
    example call set the exception is the [AttributeError] of assigning to
    the property [variants]; the stream has been read and then reset by
    the property read, and the table is not merged. *)
Theorem get_var_stats_add_to_info_raises (info_fields : list string)
    (t : DataFrame) (o : VCFClass) (files : list (string * VcfFile))
    (tr : list Event) (out : list Printed) (warned : list string) :
  (exists e w',
      get_var_stats info_fields true
        (mkWorld (with_variants t o) files tr out warned) = (Raise e, w') /\
      cached t w') /\
  (let w := Fixture.built ["CSQ"] "annotated.vcf" Fixture.annotated in
   exists w',
     get_var_stats ["CSQ"] true w = (Raise (AttributeError "variants"), w') /\
     _variants_ (self w') = _variants_ (self w) /\
     reads (trace w') = (reads (trace w) + 1)%nat /\
     vcf (self w') = rewound Fixture.annotated ["s1"; "s2"]).
Proof.
  split.
  - apply (get_var_stats_merge_raises info_fields t). reflexivity.
  - intros w. exists (snd (get_var_stats ["CSQ"] true w)).
    now vm_compute.
Qed.

(** Without the merge the six statistics come back, one row per ID. *)
Example get_var_stats_without_merge :
  fst (get_var_stats ["CSQ"] false
         (Fixture.built ["CSQ"] "annotated.vcf" Fixture.annotated)) =
  Ok (mkDataFrame None [CStr "rs1"]
        [CStr "NUM_CALLED"; CStr "CALL_RATE"; CStr "AA_FREQ";
         CStr "NUCL_DIVERSITY"; CStr "VAR_TYPE"; CStr "VAR_SUBTYPE"]
        [[CInt 2; CFloat 1; CFloat (1 # 2); CFloat (1 # 2); CStr "snp";
          CStr "ts"]]).
Proof. reflexivity. Qed.

(** ** Annotation explosion *)

Lemma np_nan_raises (w : World) : np_nan w = (Raise (NameError "np"), w).
Proof. reflexivity. Qed.

Lemma keeps_csq_guard (t : DataFrame) (present : bool) (msg : string) :
  keeps t (if negb present then raise (ValueError msg) else ret tt).
Proof. destruct present; now intros w Hc. Qed.

Lemma extract_raises_keeping (info_fields : list string) (add : bool)
    (t : DataFrame) :
  raises_keeping t (extract_vep_annotations info_fields add).
Proof.
  unfold extract_vep_annotations.
  apply raises_keeping_then; [apply keeps_variants | intros table].
  apply raises_keeping_then; [apply keeps_csq_guard | intros _].
  apply raises_keeping_then; [apply keeps_get_self | intros o].
  apply raises_keeping_then; [apply keeps_lift | intros description].
  apply raises_keeping_then; [apply keeps_lift | intros word].
  cbv zeta.
  apply raises_keeping_then; [apply keeps_variants | intros table'].
  apply raises_keeping_then; [apply keeps_lift | intros csq].
  apply raises_keeping_then; [apply keeps_lift | intros vep].
  apply raises_keeping_first.
  intros w Hc. exists (NameError "np"), w. now rewrite np_nan_raises.
Qed.

Lemma extract_never_returns (info_fields : list string) (add : bool) :
  never_returns (extract_vep_annotations info_fields add).
Proof.
  unfold extract_vep_annotations.
  do 5 (apply never_returns_then; intros ?).
  cbv zeta.
  do 3 (apply never_returns_then; intros ?).
  apply never_returns_first.
  intros w. exists (NameError "np"), w. apply np_nan_raises.
Qed.

(** What the code has computed when it reaches [np.nan]: the annotation
    ["A|1,B|2"] under sub-fields [Gene] and [Rank] is two rows, both under
    the variant's ID. *)
Example annotations_exploded :
  let w := Fixture.built ["CSQ"] "annotated.vcf" Fixture.annotated in
  res_bind (match _variants_ (self w) with
            | Some table => Pd.getcol table "CSQ"
            | None => Raise (AttributeError "_variants_")
            end)
    (fun csq =>
       Pd.set_columns
         (Str.series_split_expand "|" (Str.explode (Str.series_split "," csq)))
         ["Gene"; "Rank"]) =
  Ok (mkDataFrame (Some "ID") [CStr "rs1"; CStr "rs1"]
        [CStr "Gene"; CStr "Rank"]
        [[CStr "A"; CStr "1"]; [CStr "B"; CStr "2"]]).
Proof. reflexivity. Qed.

(** C3 (what the code does).  [extract_vep_annotations] returns in no
    world: without a ["CSQ"] column it raises the documented [ValueError],
    and with one it cannot get past [np.nan], a name the module never
    binds.  On the variant annotated ["A|1,B|2"] under sub-fields [Gene]
    and [Rank] the call raises [NameError] and yields no rows. *)
Theorem extract_vep_annotations_never_returns (info_fields : list string)
    (add : bool) (w : World) :
  (exists e w', extract_vep_annotations info_fields add w = (Raise e, w')) /\
  fst (extract_vep_annotations ["CSQ"] false
         (Fixture.fresh "annotated.vcf" Fixture.annotated)) =
  Raise (NameError "np").
Proof.
  split.
  - apply extract_never_returns.
  - reflexivity.
Qed.

(** C10 (what the code does).  With table [t] cached,
    [extract_vep_annotations(add_to_info=True)] ends in an exception and
    [t] is still the cached table, so a ["CSQ"] column it has is still
    there; no merged table is built.  On the example call set the
    exception is [NameError] for [np] and the cached table keeps its
    ["CSQ"] column. *)
Theorem extract_vep_annotations_keeps_cache (info_fields : list string)
    (t : DataFrame) (o : VCFClass) (files : list (string * VcfFile))
    (tr : list Event) (out : list Printed) (warned : list string) :
  (exists e w',
      extract_vep_annotations info_fields true
        (mkWorld (with_variants t o) files tr out warned) = (Raise e, w') /\
      cached t w') /\
  (let w := Fixture.built ["CSQ"] "annotated.vcf" Fixture.annotated in
   exists table w',
     extract_vep_annotations ["CSQ"] true w = (Raise (NameError "np"), w') /\
     _variants_ (self w) = Some table /\
     cached table w' /\
     cell_in (CStr "CSQ") (df_columns table) = true).
Proof.
  split.
  - apply (extract_raises_keeping info_fields true t). reflexivity.
  - intros w.
    destruct (_variants_ (self w)) as [table |] eqn:E; [| discriminate E].
    exists table, (snd (extract_vep_annotations ["CSQ"] true w)).
    revert E. vm_compute. intros [= <-]. now repeat split.
Qed.

(** * Further properties *)

(** ** Genotype: which raw calls encode, and to what *)

Section GenotypeDomain.

Lemma get_in_range (s : string) (n : nat) :
  (n < String.length s)%nat -> exists c, String.get n s = Some c.
Proof.
  revert n. induction s as [| c s IH]; simpl; intros n Hn; [lia |].
  destruct n as [| n]; [now exists c |].
  apply IH. lia.
Qed.

(** Indexing a [str] succeeds exactly on [-len <= i < len], and gives one
    character. *)
Lemma str_getitem_in_range (s : string) (i : Z) :
  - Z.of_nat (String.length s) <= i < Z.of_nat (String.length s) ->
  exists c, Py.str_getitem s i = Ok (String c EmptyString).
Proof.
  intros Hi. unfold Py.str_getitem.
  set (n := Z.of_nat (String.length s)) in *.
  set (j := if i <? 0 then i + n else i).
  assert (Hj : 0 <= j < n).
  { unfold j. destruct (Z.ltb_spec i 0); lia. }
  replace (j <? 0) with false by (symmetry; apply Z.ltb_ge; lia).
  replace (n <=? j) with false by (symmetry; apply Z.leb_gt; lia).
  simpl.
  destruct (get_in_range s (Z.to_nat j)) as [c Hc]; [unfold n in Hj; lia |].
  rewrite Hc. now exists c.
Qed.

Lemma str_getitem_out_of_range (s : string) (i : Z) :
  ~ (- Z.of_nat (String.length s) <= i < Z.of_nat (String.length s)) ->
  Py.str_getitem s i = Raise IndexError.
Proof.
  intros Hi. unfold Py.str_getitem.
  set (n := Z.of_nat (String.length s)) in *.
  destruct (Z.ltb_spec i 0).
  - replace (i + n <? 0) with true by (symmetry; apply Z.ltb_lt; lia).
    reflexivity.
  - replace (i <? 0) with false by (symmetry; apply Z.ltb_ge; lia).
    replace (n <=? i) with true by (symmetry; apply Z.leb_le; lia).
    reflexivity.
Qed.

Lemma res_map_only_IndexError (s : string) (al : list Z) (e : PyExc) :
  res_map (fun a => Py.str_getitem s a) al = Raise e -> e = IndexError.
Proof.
  induction al as [| a al IH]; simpl; [discriminate |].
  destruct (Py.str_getitem s a) eqn:E; simpl.
  - destruct (res_map _ al); simpl; [discriminate |].
    intros [= <-]. now apply IH.
  - intros [= <-]. eapply str_getitem_only_IndexError; eassumption.
Qed.

Lemma res_map_ok_iff (al : list Z) :
  (exists l, res_map (fun a => Py.str_getitem "0123." a) al = Ok l) <->
  Forall (fun a => -5 <= a <= 4) al.
Proof.
  induction al as [| a al IH]; simpl.
  - split; [constructor | now exists []].
  - split.
    + intros [l Hl].
      destruct (Z_le_dec (-5) a) as [H1 |];
        [destruct (Z_le_dec a 4) as [H2 |] |].
      * constructor; [lia |]. apply IH.
        destruct (Py.str_getitem "0123." a); [| discriminate].
        simpl in Hl. destruct (res_map _ al) as [l' |]; [| discriminate].
        now exists l'.
      * rewrite str_getitem_out_of_range in Hl by (simpl; lia).
        discriminate.
      * rewrite str_getitem_out_of_range in Hl by (simpl; lia).
        discriminate.
    + intros H. inversion H as [| a' al' Ha Hal]; subst.
      destruct (str_getitem_in_range "0123." a) as [c Hc]; [simpl; lia |].
      apply IH in Hal. destruct Hal as [l Hl].
      rewrite Hc, Hl. simpl. now eexists.
Qed.

End GenotypeDomain.

(** X1.  Which raw calls encode: [str(Genotype(li))] returns exactly when
    [li] is not empty, its last element (the phase flag) lies in [-2..1]
    and every allele lies in [-5..4]; in every other case it raises, and
    what it raises is [IndexError]. *)
Theorem Genotype_codec_domain (li : list Z) :
  match Genotype_codec li with
  | Ok _ =>
      exists al ph, li = (al ++ [ph])%list /\ -2 <= ph <= 1 /\
                    Forall (fun a => -5 <= a <= 4) al
  | Raise e =>
      e = IndexError /\
      (li = [] \/
       exists al ph, li = (al ++ [ph])%list /\
                     ~ (-2 <= ph <= 1 /\ Forall (fun a => -5 <= a <= 4) al))
  end.
Proof.
  destruct li as [| x li'] eqn:Eli.
  - simpl. split; [reflexivity | now left].
  - destruct (exists_last (l := x :: li')) as (al & ph & Hl);
      [discriminate |].
    rewrite Hl, Genotype_codec_unfold.
    destruct (Z_le_dec (-2) ph) as [H1 |];
      [destruct (Z_le_dec ph 1) as [H2 |] |].
    + destruct (str_getitem_in_range "/|" ph) as [c Hc]; [simpl; lia |].
      rewrite Hc. simpl.
      destruct (res_map _ al) as [l |] eqn:E; simpl.
      * exists al, ph. split; [reflexivity |]. split; [lia |].
        apply res_map_ok_iff. now exists l.
      * split; [eapply res_map_only_IndexError; eassumption |].
        right. exists al, ph. split; [reflexivity |].
        intros [_ Hall]. apply res_map_ok_iff in Hall.
        destruct Hall as [l Hl']. congruence.
    + rewrite str_getitem_out_of_range by (simpl; lia). simpl.
      split; [reflexivity |]. right. exists al, ph.
      split; [reflexivity | lia].
    + rewrite str_getitem_out_of_range by (simpl; lia). simpl.
      split; [reflexivity |]. right. exists al, ph.
      split; [reflexivity | lia].
Qed.

Lemma symbol_wraps (a : Z) :
  -5 <= a <= 4 ->
  Py.str_getitem "0123." a = Ok (allele_symbol (a mod 5)).
Proof.
  intros Ha.
  assert (Hc : a = -5 \/ a = -4 \/ a = -3 \/ a = -2 \/ a = -1 \/
               a = 0 \/ a = 1 \/ a = 2 \/ a = 3 \/ a = 4) by lia.
  repeat (destruct Hc as [-> | Hc]; [reflexivity |]).
  subst a; reflexivity.
Qed.

Lemma separator_wraps (ph : Z) :
  -2 <= ph <= 1 -> Py.str_getitem "/|" ph = Ok (phase_sep (Z.odd ph)).
Proof.
  intros Hp.
  assert (Hc : ph = -2 \/ ph = -1 \/ ph = 0 \/ ph = 1) by lia.
  repeat (destruct Hc as [-> | Hc]; [reflexivity |]).
  subst ph; reflexivity.
Qed.

Lemma symbols_wrap (al : list Z) :
  Forall (fun a => -5 <= a <= 4) al ->
  res_map (fun a => Py.str_getitem "0123." a) al =
  Ok (map (fun a => allele_symbol (a mod 5)) al).
Proof.
  induction 1 as [| a al Ha _ IH]; simpl.
  - reflexivity.
  - rewrite (symbol_wraps a Ha); simpl. now rewrite IH.
Qed.

(** X2.  What every accepted raw call encodes to: an allele index counts
    modulo the five-symbol table (so [-1] and [4] show the dot, [-2] shows
    [3], [-5] shows [0]) and the phase flag modulo two ([-1] is phased,
    [-2] unphased). *)
Theorem Genotype_codec_wraps_indices (al : list Z) (ph : Z) :
  -2 <= ph <= 1 ->
  Forall (fun a => -5 <= a <= 4) al ->
  Genotype_codec (al ++ [ph])%list =
  Ok (Py.join (phase_sep (Z.odd ph))
        (map (fun a => allele_symbol (a mod 5)) al)).
Proof.
  intros Hp Ha.
  rewrite Genotype_codec_unfold, (separator_wraps ph Hp). simpl res_bind.
  now rewrite (symbols_wrap al Ha).
Qed.

Lemma Genotype_codec_wraps_indices_witness :
  Genotype_codec [-2; 4; -5; -1] = Ok "3|.|0".
Proof.
  apply (Genotype_codec_wraps_indices [-2; 4; -5] (-1)).
  - lia.
  - repeat constructor; lia.
Defined.

Lemma symbol_is_one_character (a : Z) :
  exists c, allele_symbol a = String c EmptyString.
Proof.
  unfold allele_symbol, digit_str.
  destruct ((a =? -1) || (a =? 4)); eexists; reflexivity.
Qed.

(** X3.  The phase shows only between alleles: a raw call with no allele
    or a single one encodes to the same string phased and unphased, and a
    raw call with two alleles or more never does. *)
Theorem phase_shows_only_between_alleles (al : list Z) :
  Forall (fun a => -5 <= a <= 4) al ->
  ((List.length al <= 1)%nat ->
   Genotype_codec (al ++ [1])%list = Genotype_codec (al ++ [0])%list) /\
  ((2 <= List.length al)%nat ->
   Genotype_codec (al ++ [1])%list <> Genotype_codec (al ++ [0])%list).
Proof.
  intros Ha.
  rewrite !Genotype_codec_wraps_indices by (assumption || lia).
  simpl Z.odd. unfold phase_sep.
  split; intros Hlen.
  - destruct al as [| a [| b al]]; simpl in *; try reflexivity; lia.
  - destruct al as [| a [| b al]]; simpl in Hlen; try lia.
    simpl map.
    destruct (symbol_is_one_character (a mod 5)) as [c Hc].
    change (Py.join ?sep (?x :: ?y :: ?r))
      with (x ++ sep ++ Py.join sep (y :: r))%string.
    rewrite Hc. simpl. intros [= ].
Qed.

Lemma phase_shows_only_between_alleles_witness :
  (Genotype_codec [2; 1] = Genotype_codec [2; 0]) /\
  (Genotype_codec [0; 1; 1] <> Genotype_codec [0; 1; 0]).
Proof.
  split.
  - apply (proj1 (phase_shows_only_between_alleles [2]
                    ltac:(repeat constructor; lia))).
    simpl; lia.
  - apply (proj2 (phase_shows_only_between_alleles [0; 1]
                    ltac:(repeat constructor; lia))).
    simpl; lia.
Defined.

(** ** The cache when the file cannot be reopened *)

Lemma reset_missing (w : World) :
  lookup_str (_vcf_path (self w)) (disk w) = None ->
  reset_vcf_iterator w = (Raise (OSError (_vcf_path (self w))), w).
Proof.
  intros Hf.
  unfold reset_vcf_iterator, bind, get_self, Cyvcf2.VCF_open.
  now rewrite Hf.
Qed.

(** The world after the records have been tabulated and cached, before
    any reset. *)
Lemma build_without_reset (info_fields : list string) (w : World) :
  _variants_ (self w) = None ->
  lookup_str (_vcf_path (self w)) (disk w) = None ->
  let recs := vcf_pending (vcf (self w)) in
  variants info_fields w =
  (Raise (OSError (_vcf_path (self w))),
   mkWorld (with_variants (metadata_of info_fields recs)
              (self (consumed (List.length recs) [] w)))
     (disk w) (trace w ++ repeat EvRead (List.length recs))%list
     (stdout w) (warnings w)).
Proof.
  intros Hn Hf recs.
  unfold variants. unfold bind at 1, get_self at 1. rewrite Hn.
  unfold Parsing.get_variants_metadata, Cyvcf2.iterate, Pd.getcol,
    Pd.set_index, expr_stmt, bind, get_self, lift, ret, emit, modify_self.
  simpl.
  destruct (Pd.any_duplicated _); simpl;
    unfold reset_vcf_iterator, Cyvcf2.VCF_open, bind, get_self; simpl;
    rewrite Hf; simpl;
    unfold metadata_of; simpl; rewrite metadata_ids; reflexivity.
Qed.

(** X4.  When the facade's file can no longer be opened, the first read
    of [variants] raises [OSError] from the reset, but only after the
    table has been built from the open handle and cached: the handle is
    left at the end of the stream, and the next read raises the same error
    without rebuilding. *)
Theorem variants_caches_before_reopen_fails (info_fields : list string)
    (w : World) :
  _variants_ (self w) = None ->
  lookup_str (_vcf_path (self w)) (disk w) = None ->
  exists w',
    variants info_fields w = (Raise (OSError (_vcf_path (self w))), w') /\
    cached (metadata_of info_fields (vcf_pending (vcf (self w)))) w' /\
    vcf_pending (vcf (self w')) = [] /\
    reads (trace w') =
      (reads (trace w) + List.length (vcf_pending (vcf (self w))))%nat /\
    variants info_fields w' = (Raise (OSError (_vcf_path (self w))), w').
Proof.
  intros Hn Hf.
  eexists. split; [apply (build_without_reset info_fields w Hn Hf) |].
  split; [reflexivity |]. split; [reflexivity |].
  split; [simpl; now rewrite reads_app, reads_repeat_read |].
  rewrite (variants_when_built
             (metadata_of info_fields (vcf_pending (vcf (self w)))))
    by reflexivity.
  apply bind_raise.
  now rewrite reset_missing by exact Hf.
Qed.

Lemma variants_caches_before_reopen_fails_witness :
  let w := mkWorld (self (Fixture.fresh "annotated.vcf" Fixture.annotated))
             [] [] [] [] in
  exists w',
    variants [] w = (Raise (OSError "annotated.vcf"), w') /\
    cached (metadata_of [] (file_records Fixture.annotated)) w' /\
    vcf_pending (vcf (self w')) = [] /\
    reads (trace w') = 1%nat /\
    variants [] w' = (Raise (OSError "annotated.vcf"), w').
Proof.
  apply (variants_caches_before_reopen_fails []
           (mkWorld (self (Fixture.fresh "annotated.vcf" Fixture.annotated))
              [] [] [] [])); reflexivity.
Defined.

(** ** The thread hint *)

Lemma setup_outcome (path : string) (table : option DataFrame)
    (column : string) (threads : Z) (w w' : World) (o : VCFClass) :
  setup path table column threads w = (Ok o, w') ->
  exists f,
    lookup_str path (disk w) = Some f /\
    disk w' = disk w /\ self w' = self w /\ stdout w' = stdout w /\
    _vcf_path o = path /\ _sample_id_column o = column /\
    _threads o = threads /\
    vcf_threads (vcf o) = Some threads /\
    vcf_pending (vcf o) = file_records f /\
    samples o = vcf_active (vcf o) /\
    _variants_ o = None /\ _var_ids_ o = None /\ _var_info_ o = None.
Proof.
  unfold setup, Parsing.setup_samples_and_vcf, Cyvcf2.VCF_open.
  unfold bind at 1. unfold bind at 1.
  destruct (lookup_str path (disk w)) as [f |] eqn:Hf; [| discriminate].
  simpl. destruct table as [table |]; simpl.
  - unfold bind, lift.
    destruct (Pd.set_index table column false) as [keyed |]; simpl;
      [| discriminate].
    intros [= <- <-]. exists f. now repeat split.
  - intros [= <- <-]. exists f. now repeat split.
Qed.

(** X5.  [setup] puts the thread count on the handle it opens, but a
    reset opens a new handle and sets only the samples: after the first
    reset (so after the first read of [variants]) the handle has no thread
    count, while the facade still remembers the one it was given. *)
Theorem reset_drops_thread_hint (path : string) (table : option DataFrame)
    (column : string) (threads : Z) (w w1 : World) (o : VCFClass) :
  setup path table column threads w = (Ok o, w1) ->
  vcf_threads (vcf o) = Some threads /\
  exists w2,
    reset_vcf_iterator
      (mkWorld o (disk w1) (trace w1) (stdout w1) (warnings w1)) =
    (Ok tt, w2) /\
    vcf_threads (vcf (self w2)) = None /\
    _threads (self w2) = threads /\
    vcf_pending (vcf (self w2)) = vcf_pending (vcf o).
Proof.
  intros Hs.
  destruct (setup_outcome _ _ _ _ _ _ _ Hs)
    as (f & Hf & Hd & _ & _ & Hp & _ & Ht & Hvt & Hpend & _).
  split; [exact Hvt |].
  eexists. split.
  - apply (reset_outcome _ f). simpl. now rewrite Hp, Hd.
  - simpl. now repeat split.
Qed.

Lemma reset_drops_thread_hint_witness :
  exists o w1,
    setup "annotated.vcf" None "sample" 4
      (Fixture.fresh "annotated.vcf" Fixture.annotated) = (Ok o, w1) /\
    vcf_threads (vcf o) = Some 4 /\
    exists w2,
      reset_vcf_iterator
        (mkWorld o (disk w1) (trace w1) (stdout w1) (warnings w1)) =
      (Ok tt, w2) /\
      vcf_threads (vcf (self w2)) = None /\
      _threads (self w2) = 4 /\
      vcf_pending (vcf (self w2)) = vcf_pending (vcf o).
Proof.
  eexists _, _. split; [vm_compute; reflexivity |].
  apply (reset_drops_thread_hint "annotated.vcf" None "sample" 4
           (Fixture.fresh "annotated.vcf" Fixture.annotated)).
  reflexivity.
Defined.

(** ** Variant info *)

Lemma get_variants_info_drains (w : World) :
  exists info,
    Parsing.get_variants_info w =
      (Ok info, consumed (List.length (vcf_pending (vcf (self w)))) [] w) /\
    rectangular info /\
    List.length (df_index info) = List.length (vcf_pending (vcf (self w))).
Proof.
  eexists. split; [reflexivity |].
  unfold rectangular, Pd.range_index; simpl.
  rewrite !length_map, length_seq.
  split; [split; [| reflexivity] | reflexivity].
  apply Forall_forall. intros r Hr.
  apply in_map_iff in Hr. destruct Hr as (v & <- & _).
  now rewrite !length_map.
Qed.

Lemma var_ids_when_built (t : DataFrame) (w : World) :
  cached t w ->
  var_ids w =
  (Ok (df_index t),
   mkWorld (with_var_ids (df_index t) (self w)) (disk w) (trace w)
     (stdout w) (warnings w)).
Proof.
  intros Hc. unfold var_ids, getattr, bind, get_self, modify_self.
  unfold cached in Hc. now rewrite Hc.
Qed.

Lemma var_ids_when_unbuilt (w : World) :
  _variants_ (self w) = None ->
  var_ids w = (Raise (AttributeError "_variants_"), w).
Proof.
  intros Hn. unfold var_ids, getattr, bind, get_self. now rewrite Hn.
Qed.

Lemma var_info_unbuilt_outcome (w : World) :
  _variants_ (self w) = None ->
  _var_info_ (self w) = None ->
  var_info w =
  (Raise (AttributeError "_variants_"),
   consumed (List.length (vcf_pending (vcf (self w)))) [] w).
Proof.
  intros Hv Hi.
  unfold var_info. unfold bind at 1, get_self at 1. rewrite Hi.
  destruct (get_variants_info_drains w) as (info & E & _).
  apply bind_raise.
  rewrite (bind_ok _ _ _ _ _ E).
  apply bind_raise.
  now apply var_ids_when_unbuilt.
Qed.

(** X6.  Reading [var_info] before [variants]: the whole stream is read
    for the info fields, then the IDs are asked of a table that does not
    exist, and the [AttributeError] escapes before the reset.  The handle
    is left at the end of the stream and nothing is cached. *)
Theorem var_info_before_variants (w : World) :
  _variants_ (self w) = None ->
  _var_info_ (self w) = None ->
  exists w',
    var_info w = (Raise (AttributeError "_variants_"), w') /\
    vcf_pending (vcf (self w')) = [] /\
    trace w' =
      (trace w
       ++ repeat EvRead (List.length (vcf_pending (vcf (self w)))))%list /\
    _variants_ (self w') = None /\ _var_info_ (self w') = None.
Proof.
  intros Hv Hi. eexists.
  split; [now apply var_info_unbuilt_outcome |].
  now repeat split.
Qed.

Lemma var_info_before_variants_witness :
  let w := Fixture.fresh "clashing.vcf" Fixture.clashing in
  exists w',
    var_info w = (Raise (AttributeError "_variants_"), w') /\
    vcf_pending (vcf (self w')) = [] /\
    trace w' = [EvRead; EvRead] /\
    _variants_ (self w') = None /\ _var_info_ (self w') = None.
Proof.
  apply (var_info_before_variants
           (Fixture.fresh "clashing.vcf" Fixture.clashing)); reflexivity.
Defined.

(** X7.  After that failed read of [var_info], [variants] finds the
    stream exhausted: it builds, caches and returns a table with no rows,
    whatever the file holds, and the IDs are then the empty list. *)
Theorem variants_after_failed_var_info (info_fields : list string)
    (w : World) (f : VcfFile) :
  _variants_ (self w) = None ->
  _var_info_ (self w) = None ->
  lookup_str (_vcf_path (self w)) (disk w) = Some f ->
  exists w1 t w2,
    var_info w = (Raise (AttributeError "_variants_"), w1) /\
    variants info_fields w1 = (Ok t, w2) /\
    df_rows t = [] /\ df_index t = [] /\
    cached t w2 /\
    fst (var_ids w2) = Ok [].
Proof.
  intros Hv Hi Hf. eexists _, _, _.
  split; [now apply var_info_unbuilt_outcome |].
  split; [now apply (variants_first_outcome info_fields _ f) |].
  simpl. now repeat split.
Qed.

Lemma variants_after_failed_var_info_witness :
  let w := Fixture.fresh "clashing.vcf" Fixture.clashing in
  List.length (file_records Fixture.clashing) = 2%nat /\
  exists w1 t w2,
    var_info w = (Raise (AttributeError "_variants_"), w1) /\
    variants [] w1 = (Ok t, w2) /\
    df_rows t = [] /\ df_index t = [] /\
    cached t w2 /\
    fst (var_ids w2) = Ok [].
Proof.
  split; [reflexivity |].
  apply (variants_after_failed_var_info []
           (Fixture.fresh "clashing.vcf" Fixture.clashing)
           Fixture.clashing); reflexivity.
Defined.

Section ColumnFacts.

Lemma Cell_eqb_refl (c : Cell) : Cell_eqb c c = true.
Proof.
  destruct c; simpl; try reflexivity.
  - apply Z.eqb_refl.
  - apply Qeq_bool_iff. reflexivity.
  - apply String.eqb_refl.
Qed.

Lemma position_bound (c : Cell) (l : list Cell) (k : nat) :
  position c l = Some k -> (k < List.length l)%nat.
Proof.
  revert k. induction l as [| x l IH]; simpl; intros k; [discriminate |].
  destruct (Cell_eqb c x).
  - intros [= <-]. lia.
  - destruct (position c l) as [k' |]; simpl; [| discriminate].
    intros [= <-]. specialize (IH k' eq_refl). lia.
Qed.

Lemma position_appended (c : Cell) (l : list Cell) :
  position c l = None -> position c (l ++ [c]) = Some (List.length l).
Proof.
  induction l as [| x l IH]; simpl.
  - now rewrite Cell_eqb_refl.
  - destruct (Cell_eqb c x); [discriminate |].
    destruct (position c l); simpl; [discriminate |].
    intros _. now rewrite IH.
Qed.

Lemma nth_replace_nth (k : nat) (v d : Cell) (l : list Cell) :
  (k < List.length l)%nat -> nth k (Pd.replace_nth k v l) d = v.
Proof.
  revert k. induction l as [| x l IH]; simpl; intros k Hk; [lia |].
  destruct k as [| k]; simpl; [reflexivity |].
  apply IH. lia.
Qed.

Lemma replaced_column (k : nat) (rows : list (list Cell))
    (values : list Cell) :
  Forall (fun r => (k < List.length r)%nat) rows ->
  List.length values = List.length rows ->
  map (fun r => nth k r CNaN)
    (map (fun rv : list Cell * Cell => Pd.replace_nth k (snd rv) (fst rv))
       (combine rows values)) = values.
Proof.
  intros Hr. revert values.
  induction Hr as [| r rows Hk _ IH]; intros [| v values] Hl;
    simpl in *; try discriminate; [reflexivity |].
  rewrite nth_replace_nth by exact Hk.
  f_equal. apply IH. lia.
Qed.

Lemma appended_column (n : nat) (rows : list (list Cell))
    (values : list Cell) :
  Forall (fun r => List.length r = n) rows ->
  List.length values = List.length rows ->
  map (fun r => nth n r CNaN)
    (map (fun rv : list Cell * Cell => (fst rv ++ [snd rv])%list)
       (combine rows values)) = values.
Proof.
  intros Hr. revert values.
  induction Hr as [| r rows Hn _ IH]; intros [| v values] Hl;
    simpl in *; try discriminate; [reflexivity |].
  rewrite app_nth2 by lia.
  rewrite Hn, Nat.sub_diag. simpl.
  f_equal. apply IH. lia.
Qed.

Lemma length_combine_same {A B} (l : list A) (l' : list B) :
  List.length l' = List.length l ->
  List.length (combine l l') = List.length l.
Proof. intros H. rewrite length_combine. lia. Qed.

(** Assigning a column of the right length to a well-formed table, then
    reading it back and making it the index. *)
Lemma setcol_then_index (df : DataFrame) (col : string)
    (values : list Cell) :
  rectangular df ->
  List.length values = List.length (df_index df) ->
  exists df',
    Pd.setcol df col values = Ok df' /\
    List.length (df_rows df') = List.length (df_rows df) /\
    Pd.getcol df' col =
      Ok (mkSeries (df_index_name df) (df_index df) values) /\
    Pd.set_index df' col false =
      Ok (mkDataFrame (Some col) values (df_columns df') (df_rows df')).
Proof.
  intros [Hrows Hlen] Hv.
  unfold Pd.setcol. rewrite Hv, Nat.eqb_refl. simpl negb. cbv iota.
  destruct (position (CStr col) (df_columns df)) as [k |] eqn:Hp.
  - eexists. split; [reflexivity |].
    unfold Pd.getcol, Pd.set_index. simpl. rewrite Hp.
    rewrite replaced_column.
    + rewrite length_map, length_combine_same by lia. now repeat split.
    + eapply Forall_impl; [| exact Hrows]. simpl. intros r ->.
      eapply position_bound; eassumption.
    + lia.
  - eexists. split; [reflexivity |].
    unfold Pd.getcol, Pd.set_index. simpl.
    rewrite (position_appended _ _ Hp).
    rewrite appended_column.
    + rewrite length_map, length_combine_same by lia. now repeat split.
    + exact Hrows.
    + lia.
Qed.

End ColumnFacts.

Lemma duplicate_check_outcome (vals : list Cell) (w : World) :
  (if Pd.any_duplicated vals
   then expr_stmt (Warning duplicate_ids_message)
   else ret tt) w = (Ok tt, w).
Proof. now destruct (Pd.any_duplicated vals). Qed.

Lemma var_info_when_built (ti : DataFrame) (w : World) (f : VcfFile) :
  _var_info_ (self w) = Some ti ->
  lookup_str (_vcf_path (self w)) (disk w) = Some f ->
  var_info w = (Ok ti, after_reset f w).
Proof.
  intros Hi Hf.
  unfold var_info. unfold bind at 1, get_self at 1. rewrite Hi.
  unfold bind at 1. unfold ret at 1.
  rewrite (bind_ok _ _ _ _ _ (reset_outcome w f Hf)).
  unfold getattr, bind, get_self. simpl. now rewrite Hi.
Qed.

(** X8.  Reading [var_info] once the metadata is built and the handle
    holds as many records as there are IDs: the info table is returned
    with the IDs as its [ID] column and as its index, one row per record;
    it is cached, the metadata cache is untouched, the stream is reset,
    and a second read returns the same table without reading a record. *)
Theorem var_info_after_variants (t : DataFrame) (w : World) (f : VcfFile) :
  cached t w ->
  _var_info_ (self w) = None ->
  List.length (df_index t) = List.length (vcf_pending (vcf (self w))) ->
  lookup_str (_vcf_path (self w)) (disk w) = Some f ->
  exists ti w',
    var_info w = (Ok ti, w') /\
    df_index ti = df_index t /\
    (exists ids, Pd.getcol ti "ID" = Ok ids /\ sr_values ids = df_index t) /\
    List.length (df_rows ti) = List.length (vcf_pending (vcf (self w))) /\
    _var_info_ (self w') = Some ti /\
    cached t w' /\
    vcf (self w') = rewound f (samples (self w)) /\
    reads (trace w') =
      (reads (trace w) + List.length (vcf_pending (vcf (self w))))%nat /\
    var_info w' = (Ok ti, after_reset f w').
Proof.
  intros Hc Hi Hlen Hf.
  destruct (get_variants_info_drains w) as (info & E & Hrect & Hn).
  destruct (setcol_then_index info "ID" (df_index t) Hrect)
    as (df' & Eset & Hrows & Eget & Eidx); [lia |].
  set (n := List.length (vcf_pending (vcf (self w)))) in *.
  set (w1 := consumed n [] w) in *.
  set (w2 := mkWorld (with_var_ids (df_index t) (self w1)) (disk w1)
               (trace w1) (stdout w1) (warnings w1)).
  set (ti := mkDataFrame (Some "ID") (df_index t) (df_columns df')
               (df_rows df')).
  set (w3 := mkWorld (with_var_info ti (self w2)) (disk w2) (trace w2)
               (stdout w2) (warnings w2)).
  assert (Ebuild : var_info w = (Ok ti, after_reset f w3)).
  { unfold var_info. unfold bind at 1, get_self at 1. rewrite Hi.
    rewrite (bind_ok _ _ w w3 tt).
    - rewrite (bind_ok _ _ _ _ _ (reset_outcome w3 f Hf)).
      reflexivity.
    - rewrite (bind_ok _ _ _ _ _ E).
      rewrite (bind_ok _ _ _ _ _ (var_ids_when_built t w1 Hc)).
      fold w2.
      unfold lift at 1. unfold bind at 1. rewrite Eset.
      unfold lift at 1. unfold bind at 1. rewrite Eget.
      rewrite (bind_ok _ _ _ _ _ (duplicate_check_outcome _ w2)).
      unfold lift at 1. unfold bind at 1. rewrite Eidx.
      reflexivity. }
  exists ti, (after_reset f w3).
  split; [exact Ebuild |].
  split; [reflexivity |].
  split.
  { unfold ti, Pd.getcol. simpl.
    unfold Pd.set_index in Eidx.
    destruct (position (CStr "ID") (df_columns df')) as [k |];
      [| discriminate].
    injection Eidx as Ek. eexists. split; [reflexivity |]. exact Ek. }
  split.
  { unfold ti; simpl. rewrite Hrows.
    destruct Hrect as [_ Hr]. lia. }
  split; [reflexivity |].
  split; [exact Hc |].
  split; [reflexivity |].
  split.
  { simpl. rewrite !reads_app, reads_repeat_read.
    change (reads (reset_events _)) with O. lia. }
  apply var_info_when_built; [reflexivity | exact Hf].
Qed.

Lemma var_info_after_variants_witness :
  let w := Fixture.built [] "annotated.vcf" Fixture.annotated in
  exists t ti w',
    cached t w /\
    var_info w = (Ok ti, w') /\
    df_index ti = df_index t /\
    (exists ids, Pd.getcol ti "ID" = Ok ids /\ sr_values ids = df_index t) /\
    List.length (df_rows ti) = 1%nat /\
    _var_info_ (self w') = Some ti /\
    cached t w' /\
    vcf (self w') = rewound Fixture.annotated ["s1"; "s2"] /\
    reads (trace w') = (reads (trace w) + 1)%nat /\
    var_info w' = (Ok ti, after_reset Fixture.annotated w').
Proof.
  intros w.
  exists (metadata_of [] (file_records Fixture.annotated)).
  destruct (var_info_after_variants
              (metadata_of [] (file_records Fixture.annotated)) w
              Fixture.annotated)
    as (ti & w' & H); try reflexivity.
  exists ti, w'. split; [reflexivity | exact H].
Defined.

(** ** The statistics table *)

Section LabelFacts.

Lemma Qeq_bool_sym (x y : Q) : Qeq_bool x y = Qeq_bool y x.
Proof.
  destruct (Qeq_bool x y) eqn:E1, (Qeq_bool y x) eqn:E2; try reflexivity.
  - apply Qeq_bool_iff in E1. symmetry in E1.
    apply Qeq_bool_iff in E1. congruence.
  - apply Qeq_bool_iff in E2. symmetry in E2.
    apply Qeq_bool_iff in E2. congruence.
Qed.

Lemma Cell_eqb_sym (a b : Cell) : Cell_eqb a b = Cell_eqb b a.
Proof.
  destruct a, b; simpl; try reflexivity.
  - apply Z.eqb_sym.
  - apply Qeq_bool_sym.
  - apply Qeq_bool_sym.
  - apply Qeq_bool_sym.
  - apply String.eqb_sym.
Qed.

Lemma cell_in_app (c : Cell) (l1 l2 : list Cell) :
  cell_in c (l1 ++ l2) = cell_in c l1 || cell_in c l2.
Proof. unfold cell_in. apply existsb_app. Qed.

Lemma any_duplicated_app (l1 l2 : list Cell) :
  Pd.any_duplicated (l1 ++ l2) = false ->
  Pd.any_duplicated l1 = false /\ Pd.any_duplicated l2 = false /\
  forall a, In a l1 -> cell_in a l2 = false.
Proof.
  induction l1 as [| x l1 IH]; simpl; intros H.
  - now repeat split.
  - apply orb_false_iff in H. destruct H as [Hx Hrest].
    rewrite cell_in_app in Hx. apply orb_false_iff in Hx.
    destruct Hx as [Hx1 Hx2].
    destruct (IH Hrest) as (H1 & H2 & H3).
    rewrite Hx1, H1. repeat split; [assumption |].
    intros a [<- | Ha]; [assumption | now apply H3].
Qed.

Lemma cell_in_false (c : Cell) (l : list Cell) :
  cell_in c l = false -> forall a, In a l -> Cell_eqb c a = false.
Proof.
  unfold cell_in. intros H a Ha.
  destruct (Cell_eqb c a) eqn:E; [| reflexivity].
  assert (existsb (Cell_eqb c) l = true)
    by (apply existsb_exists; now exists a).
  congruence.
Qed.

Lemma cell_in_member (c : Cell) (l : list Cell) :
  In c l -> cell_in c l = true.
Proof.
  intros H. apply existsb_exists. exists c.
  split; [exact H | apply Cell_eqb_refl].
Qed.

(** A label that repeats no earlier label is new to them. *)
Lemma fresh_label (l : list Cell) (k : Cell) :
  Pd.any_duplicated (l ++ [k]) = false ->
  cell_in k l = false.
Proof.
  intros H. destruct (any_duplicated_app _ _ H) as (_ & _ & H3).
  destruct (cell_in k l) eqn:E; [| reflexivity].
  apply existsb_exists in E. destruct E as (a & Ha & Eab).
  specialize (H3 a Ha). simpl in H3.
  rewrite Cell_eqb_sym in Eab. rewrite Eab in H3. discriminate.
Qed.

Lemma set_fresh_key (k v : Cell) (d : Dict.t) :
  cell_in k (Dict.keys d) = false ->
  Dict.set k v d = (d ++ [(k, v)])%list.
Proof.
  induction d as [| [k' v'] d IH]; simpl; [reflexivity |].
  intros H. apply orb_false_iff in H. destruct H as [Hk Hd].
  rewrite Hk. now rewrite IH.
Qed.

Lemma get_listed_key (d : Dict.t) (k v : Cell) :
  Pd.any_duplicated (Dict.keys d) = false ->
  In (k, v) d -> Dict.get k d = Some v.
Proof.
  induction d as [| [k' v'] d IH]; simpl; [contradiction |].
  intros H Hin. apply orb_false_iff in H. destruct H as [Hk Hd].
  destruct Hin as [[= -> ->] | Hin].
  - now rewrite Cell_eqb_refl.
  - assert (Hne : Cell_eqb k k' = false).
    { rewrite Cell_eqb_sym.
      apply (cell_in_false _ _ Hk).
      apply in_map_iff. now exists (k, v). }
    rewrite Hne. now apply IH.
Qed.

Lemma union_keys_new (acc ks : list Cell) :
  Pd.any_duplicated (acc ++ ks) = false ->
  Dict.union_keys acc ks = (acc ++ ks)%list.
Proof.
  revert acc. induction ks as [| k ks IH]; intros acc H; simpl.
  - now rewrite app_nil_r.
  - assert (H' : Pd.any_duplicated ((acc ++ [k]) ++ ks) = false)
      by now rewrite <- app_assoc.
    destruct (any_duplicated_app _ _ H') as (Hak & _ & _).
    rewrite (fresh_label _ _ Hak).
    rewrite IH by exact H'. now rewrite <- app_assoc.
Qed.

Lemma union_keys_known (acc ks : list Cell) :
  (forall k, In k ks -> cell_in k acc = true) ->
  Dict.union_keys acc ks = acc.
Proof.
  induction ks as [| k ks IH]; simpl; intros H; [reflexivity |].
  rewrite (H k) by now left.
  apply IH. intros k' Hk'. apply H. now right.
Qed.

End LabelFacts.

Section StatsTable.

Variable cols : list (string * (Variant -> Cell)).

Lemma combine_map_self {A B} (g : A -> B) (l : list A) :
  combine (map g l) l = map (fun a => (g a, a)) l.
Proof. induction l; simpl; [reflexivity | now f_equal]. Qed.

Lemma gathered_keys (c : string * (Variant -> Cell))
    (pairs : list (Variant * Cell)) :
  Dict.keys (map (fun p : Variant * Cell => (snd p, snd c (fst p))) pairs) =
  map snd pairs.
Proof. unfold Dict.keys. rewrite map_map. reflexivity. Qed.

Lemma stats_gathered (pairs : list (Variant * Cell)) :
  Pd.any_duplicated (map snd pairs) = false ->
  fold_left
    (fun stats (vi : Variant * Cell) =>
       map (fun sc : (string * Dict.t) * (string * (Variant -> Cell)) =>
              (fst (fst sc),
               Dict.set (snd vi) (snd (snd sc) (fst vi)) (snd (fst sc))))
         (combine stats cols))
    pairs (map (fun c => (fst c, [])) cols) = gathered cols pairs.
Proof.
  induction pairs as [| p pairs IH] using rev_ind; intros Hd.
  - reflexivity.
  - rewrite map_app in Hd. simpl in Hd.
    destruct (any_duplicated_app _ _ Hd) as (Hpre & _ & _).
    rewrite fold_left_app. simpl. rewrite (IH Hpre).
    unfold gathered. rewrite combine_map_self, map_map. simpl.
    apply map_ext. intros c. f_equal.
    rewrite set_fresh_key.
    + now rewrite map_app.
    + rewrite gathered_keys. now apply fresh_label.
Qed.

Lemma gathered_labels (pairs : list (Variant * Cell)) (acc : list Cell)
    (cs : list (string * (Variant -> Cell))) :
  (forall k, In k (map snd pairs) -> cell_in k acc = true) ->
  fold_left (fun acc col => Dict.union_keys acc (Dict.keys (snd col)))
    (map (fun c : string * (Variant -> Cell) =>
            (fst c,
             map (fun p : Variant * Cell => (snd p, snd c (fst p))) pairs))
       cs) acc = acc.
Proof.
  intros H. induction cs as [| c cs IH]; simpl; [reflexivity |].
  rewrite gathered_keys, union_keys_known by exact H.
  exact IH.
Qed.

Lemma gathered_frame (pairs : list (Variant * Cell)) :
  cols <> [] ->
  Pd.any_duplicated (map snd pairs) = false ->
  Dict.to_frame (gathered cols pairs) =
  mkDataFrame None (map snd pairs) (map (fun c => CStr (fst c)) cols)
    (map (fun p => map (fun c : string * (Variant -> Cell) => snd c (fst p))
                     cols) pairs).
Proof.
  intros Hne Hd. unfold Dict.to_frame.
  assert (Hlab :
    fold_left (fun acc col => Dict.union_keys acc (Dict.keys (snd col)))
      (gathered cols pairs) [] = map snd pairs).
  { unfold gathered. destruct cols as [| c cs]; [contradiction |].
    simpl. rewrite gathered_keys, union_keys_new by exact Hd.
    simpl. apply gathered_labels. intros k. apply cell_in_member. }
  rewrite Hlab. f_equal.
  - unfold gathered. now rewrite map_map.
  - rewrite map_map. apply map_ext_in. intros p Hp.
    unfold gathered. rewrite map_map. apply map_ext. intros c. simpl.
    rewrite (get_listed_key _ (snd p) (snd c (fst p))).
    + reflexivity.
    + now rewrite gathered_keys.
    + apply in_map_iff. now exists p.
Qed.

End StatsTable.

Lemma zip_records_same_length (recs : list Variant) (ids : list Cell) :
  List.length ids = List.length recs ->
  Cyvcf2.zip_records recs ids = (combine recs ids, (List.length recs, [])).
Proof.
  revert ids. induction recs as [| v recs IH]; intros [| i ids] Hl;
    simpl in *; try discriminate; try reflexivity.
  rewrite IH by lia. reflexivity.
Qed.

Lemma zip_iterate_outcome (ids : list Cell) (w : World) :
  List.length ids = List.length (vcf_pending (vcf (self w))) ->
  Cyvcf2.zip_iterate ids w =
  (Ok (combine (vcf_pending (vcf (self w))) ids),
   consumed (List.length (vcf_pending (vcf (self w)))) [] w).
Proof.
  intros Hl. unfold Cyvcf2.zip_iterate, bind, get_self.
  rewrite (zip_records_same_length _ _ Hl). reflexivity.
Qed.

Lemma map_fst_combine {A B} (l : list A) (l' : list B) :
  List.length l' = List.length l -> map fst (combine l l') = l.
Proof.
  revert l'. induction l as [| a l IH]; intros [| b l'] H;
    simpl in *; try discriminate; [reflexivity |].
  f_equal. apply IH. lia.
Qed.

Lemma map_snd_combine {A B} (l : list A) (l' : list B) :
  List.length l' = List.length l -> map snd (combine l l') = l'.
Proof.
  revert l'. induction l as [| a l IH]; intros [| b l'] H;
    simpl in *; try discriminate; [reflexivity |].
  f_equal. apply IH. lia.
Qed.

(** X9.  [get_var_stats(add_to_info=False)] on a built facade whose IDs
    are all different and whose handle holds one record per ID: the table
    returned has the IDs as its index, the six statistic columns, and in
    each row the six values of the record in that position; the stream is
    read once and reset, and the cached metadata is untouched. *)
Theorem get_var_stats_table (info_fields : list string) (t : DataFrame)
    (w : World) (f : VcfFile) :
  cached t w ->
  Pd.any_duplicated (df_index t) = false ->
  List.length (df_index t) = List.length (vcf_pending (vcf (self w))) ->
  lookup_str (_vcf_path (self w)) (disk w) = Some f ->
  exists w',
    get_var_stats info_fields false w =
      (Ok (mkDataFrame None (df_index t)
             (map (fun c => CStr (fst c)) stat_columns)
             (map stats_row (vcf_pending (vcf (self w))))), w') /\
    cached t w' /\
    vcf (self w') = rewound f (samples (self w)) /\
    reads (trace w') =
      (reads (trace w) + List.length (vcf_pending (vcf (self w))))%nat.
Proof.
  intros Hc Hd Hl Hf.
  set (recs := vcf_pending (vcf (self w))) in *.
  set (w1 := mkWorld (with_var_ids (df_index t) (self w)) (disk w) (trace w)
               (stdout w) (warnings w)).
  set (w2 := consumed (List.length recs) [] w1).
  exists (after_reset f w2).
  split.
  - unfold get_var_stats. cbv zeta.
    rewrite (bind_ok _ _ _ _ _ (var_ids_when_built t w Hc)). fold w1.
    rewrite (bind_ok _ _ _ _ _ (zip_iterate_outcome (df_index t) w1 Hl)).
    change (vcf_pending (vcf (self w1))) with recs. fold w2.
    unfold bind at 1. unfold ret at 1.
    rewrite (bind_ok _ _ _ _ _ (reset_outcome w2 f Hf)).
    unfold ret. do 2 f_equal.
    rewrite stats_gathered by now rewrite map_snd_combine.
    rewrite gathered_frame;
      [| discriminate | now rewrite map_snd_combine].
    rewrite map_snd_combine by exact Hl. f_equal.
    rewrite <- (map_fst_combine recs (df_index t) Hl) at 2.
    now rewrite map_map.
  - split; [exact Hc |]. split; [reflexivity |].
    simpl. rewrite !reads_app, reads_repeat_read.
    change (reads (reset_events _)) with O. lia.
Qed.

Lemma get_var_stats_table_witness :
  let w := Fixture.built [] "annotated.vcf" Fixture.annotated in
  exists w',
    get_var_stats [] false w =
      (Ok (mkDataFrame None [CStr "rs1"]
             [CStr "NUM_CALLED"; CStr "CALL_RATE"; CStr "AA_FREQ";
              CStr "NUCL_DIVERSITY"; CStr "VAR_TYPE"; CStr "VAR_SUBTYPE"]
             [[CInt 2; CFloat 1; CFloat (1 # 2); CFloat (1 # 2);
               CStr "snp"; CStr "ts"]]), w') /\
    cached (metadata_of [] (file_records Fixture.annotated)) w' /\
    vcf (self w') = rewound Fixture.annotated ["s1"; "s2"] /\
    reads (trace w') = (reads (trace w) + 1)%nat.
Proof.
  apply (get_var_stats_table []
           (metadata_of [] (file_records Fixture.annotated))
           (Fixture.built [] "annotated.vcf" Fixture.annotated)
           Fixture.annotated); reflexivity.
Defined.

(** ** Annotations without the column *)

Lemma text_cell_in (s : string) (l : list string) :
  cell_in (CStr s) (map CStr l) = existsb (String.eqb s) l.
Proof.
  unfold cell_in. induction l as [| x l IH]; simpl; [reflexivity |].
  now rewrite IH.
Qed.

(** X10.  [extract_vep_annotations] on a facade whose metadata has no
    ["CSQ"] column (as when that info field was not requested): the
    metadata is built and cached and the stream reset by the property
    read, and then the documented [ValueError] is raised. *)
Theorem extract_without_CSQ_column (info_fields : list string) (add : bool)
    (w : World) (f : VcfFile) :
  _variants_ (self w) = None ->
  lookup_str (_vcf_path (self w)) (disk w) = Some f ->
  existsb (String.eqb "CSQ") info_fields = false ->
  extract_vep_annotations info_fields add w =
  (Raise (ValueError
     "CSQ column not found in variants. This column is required for VEP annotations. Consider parsing VCF with add_info=True"),
   after_build info_fields f w).
Proof.
  intros Hn Hf Hcsq.
  unfold extract_vep_annotations.
  rewrite (bind_ok _ _ _ _ _ (variants_first_outcome info_fields w f Hn Hf)).
  apply bind_raise.
  unfold metadata_of, Parsing.positional_columns.
  cbn [df_columns].
  rewrite map_app, cell_in_app, !text_cell_in, Hcsq.
  reflexivity.
Qed.

Lemma extract_without_CSQ_column_witness :
  let w := Fixture.fresh "annotated.vcf" Fixture.annotated in
  extract_vep_annotations [] true w =
  (Raise (ValueError
     "CSQ column not found in variants. This column is required for VEP annotations. Consider parsing VCF with add_info=True"),
   after_build [] Fixture.annotated w).
Proof.
  apply (extract_without_CSQ_column [] true
           (Fixture.fresh "annotated.vcf" Fixture.annotated)
           Fixture.annotated); reflexivity.
Defined.

(** ** Loops over the stream *)

Lemma advance_outcome (rest : list Variant) (w : World) :
  advance rest w = (Ok tt, consumed 1 rest w).
Proof. reflexivity. Qed.

Lemma consumed_again (m n : nat) (r r' : list Variant) (w : World) :
  consumed n r (consumed m r' w) = consumed (m + n) r w.
Proof.
  unfold consumed; simpl. now rewrite repeat_app, app_assoc.
Qed.

Lemma consumed_nothing (w : World) :
  vcf_pending (vcf (self w)) = [] -> consumed 0 [] w = w.
Proof.
  destruct w as [[[fl act pend thr] p c th si sm v i vi] d tr out wn].
  simpl. intros ->. unfold consumed; simpl. now rewrite app_nil_r.
Qed.

Section PureBodies.

Context {S : Type}.

(** A zipped loop whose body only computes, over a handle that holds one
    record per id. *)
Lemma for_zipped_pure (body : Variant -> Cell -> S -> M S)
    (g : Variant -> Cell -> S -> S) :
  (forall v i s w, body v i s w = (Ok (g v i s), w)) ->
  forall recs ids s w,
    vcf_pending (vcf (self w)) = recs ->
    List.length ids = List.length recs ->
    for_zipped recs ids body s w =
    (Ok (fold_left (fun s (vi : Variant * Cell) => g (fst vi) (snd vi) s)
           (combine recs ids) s),
     consumed (List.length recs) [] w).
Proof.
  intros Hbody.
  induction recs as [| v rest IH]; intros [| i ids] s w Hp Hl;
    simpl in Hl; try discriminate.
  - simpl. now rewrite consumed_nothing.
  - simpl for_zipped.
    rewrite (bind_ok _ _ _ _ _ (advance_outcome rest w)).
    rewrite (bind_ok _ _ _ _ _ (Hbody v i s _)).
    rewrite IH by (reflexivity || lia).
    now rewrite consumed_again.
Qed.

(** A loop over the records whose body only computes. *)
Lemma for_records_pure (body : Variant -> S -> M S) (g : Variant -> S -> S)
    (recs : list Variant) :
  (forall v, In v recs -> forall s w, body v s w = (Ok (g v s), w)) ->
  forall s w,
    vcf_pending (vcf (self w)) = recs ->
    for_records recs body s w =
    (Ok (fold_left (fun s v => g v s) recs s),
     consumed (List.length recs) [] w).
Proof.
  induction recs as [| v rest IH]; intros Hbody s w Hp.
  - simpl. now rewrite consumed_nothing.
  - simpl for_records.
    rewrite (bind_ok _ _ _ _ _ (advance_outcome rest w)).
    rewrite (bind_ok _ _ _ _ _ (Hbody v (or_introl eq_refl) s _)).
    rewrite IH; [| intros v' Hv'; apply Hbody; now right | reflexivity].
    now rewrite consumed_again.
Qed.

End PureBodies.

(** ** Saving *)

Section DiskFacts.

Lemma lookup_removed (path : string) (d : list (string * VcfFile)) :
  lookup_str path (Disk.remove path d) = None.
Proof.
  unfold Disk.remove.
  induction d as [| [p f] d IH]; simpl; [reflexivity |].
  destruct (String.eqb path p) eqn:E; simpl; [exact IH |].
  now rewrite E.
Qed.

Lemma lookup_remove_other (path p : string) (d : list (string * VcfFile)) :
  p <> path -> lookup_str p (Disk.remove path d) = lookup_str p d.
Proof.
  intros Hne. unfold Disk.remove.
  induction d as [| [q f] d IH]; simpl; [reflexivity |].
  destruct (String.eqb path q) eqn:E; simpl.
  - apply String.eqb_eq in E. subst q.
    apply String.eqb_neq in Hne. now rewrite Hne.
  - now rewrite IH.
Qed.

Lemma lookup_written (path : string) (f : VcfFile)
    (d : list (string * VcfFile)) :
  lookup_str path (Disk.write path f d) = Some f.
Proof. unfold Disk.write. simpl. now rewrite String.eqb_refl. Qed.

Lemma lookup_write_other (path p : string) (f : VcfFile)
    (d : list (string * VcfFile)) :
  p <> path -> lookup_str p (Disk.write path f d) = lookup_str p d.
Proof.
  intros Hne. unfold Disk.write. simpl.
  apply String.eqb_neq in Hne as Hb. rewrite Hb.
  now apply lookup_remove_other.
Qed.

End DiskFacts.

Lemma records_written (keep : list Cell) (h : Variant * Cell -> Variant)
    (pairs : list (Variant * Cell)) (wr : Writer) :
  fold_left
    (fun wr (vi : Variant * Cell) =>
       if cell_in (snd vi) keep then write_record wr (h vi) else wr)
    pairs wr =
  mkWriter (writer_path wr) (writer_header wr) (writer_samples wr)
    (writer_records wr
     ++ map h (filter (fun vi => cell_in (snd vi) keep) pairs))%list.
Proof.
  revert wr. induction pairs as [| p pairs IH]; intros wr; simpl.
  - rewrite app_nil_r. now destruct wr.
  - destruct (cell_in (snd p) keep); rewrite IH; simpl;
      [now rewrite <- app_assoc | reflexivity].
Qed.

(** X11.  [save_vcf] on a built facade whose handle holds one record per
    ID, writing to a path other than its own: the new file has the header
    and the active samples of the source, and exactly the records whose ID
    is in the list to keep (every ID when none is given), in stream order,
    relabelled with the in-memory ID when [add_ids] is set; other files
    are untouched, the source stream is reset, the cache is as it was, and
    the message is printed. *)
Theorem save_vcf_writes_selected
    (set_ID : Variant -> Cell -> Res Variant)
    (relabel : Variant -> Cell -> Variant)
    (save_path : string) (add_ids : bool) (selection : option (list Cell))
    (t : DataFrame) (w : World) (f : VcfFile) :
  cached t w ->
  List.length (df_index t) = List.length (vcf_pending (vcf (self w))) ->
  lookup_str (_vcf_path (self w)) (disk w) = Some f ->
  save_path <> _vcf_path (self w) ->
  (add_ids = true -> forall v i, set_ID v i = Ok (relabel v i)) ->
  let keep := match selection with
              | Some l => l
              | None => df_index t
              end in
  let written :=
    map (fun vi : Variant * Cell =>
           if add_ids then relabel (fst vi) (snd vi) else fst vi)
      (filter (fun vi => cell_in (snd vi) keep)
         (combine (vcf_pending (vcf (self w))) (df_index t))) in
  exists w',
    save_vcf set_ID save_path add_ids selection w = (Ok tt, w') /\
    lookup_str save_path (disk w') =
      Some (mkVcfFile (file_header (vcf_file (vcf (self w))))
              (vcf_active (vcf (self w))) written) /\
    (forall p, p <> save_path ->
               lookup_str p (disk w') = lookup_str p (disk w)) /\
    cached t w' /\
    vcf (self w') = rewound f (samples (self w)) /\
    stdout w' = (stdout w ++ [PrText ("VCF saved to " ++ save_path)])%list.
Proof.
  intros Hc Hl Hf Hne Hset keep written.
  set (recs := vcf_pending (vcf (self w))) in *.
  set (w1 := mkWorld (self w) (Disk.remove save_path (disk w)) (trace w)
               (stdout w) (warnings w)).
  set (w2 := mkWorld (with_var_ids (df_index t) (self w1)) (disk w1)
               (trace w1) (stdout w1) (warnings w1)).
  set (wr0 := mkWriter save_path (file_header (vcf_file (vcf (self w))))
                (vcf_active (vcf (self w))) []).
  set (body := fun (v : Variant) (id : Cell) (wr : Writer) =>
                 if cell_in id keep
                 then
                   v' <- (if add_ids then lift (set_ID v id) else ret v) ;;
                   ret (write_record wr v')
                 else ret wr).
  assert (Hbody : forall v i s w0,
             body v i s w0 =
             (Ok (if cell_in i keep
                  then write_record s
                         (if add_ids then relabel v i else v)
                  else s), w0)).
  { intros v i s w0. unfold body.
    destruct (cell_in i keep); [| reflexivity].
    destruct add_ids; [| reflexivity].
    unfold bind, lift. now rewrite (Hset eq_refl). }
  assert (Hloop := for_zipped_pure body _ Hbody recs (df_index t) wr0 w2
                     eq_refl Hl).
  rewrite (records_written keep
             (fun vi => if add_ids then relabel (fst vi) (snd vi)
                        else fst vi)) in Hloop.
  simpl app in Hloop. fold written in Hloop.
  set (w3 := consumed (List.length recs) [] w2) in *.
  set (file := mkVcfFile (file_header (vcf_file (vcf (self w))))
                 (vcf_active (vcf (self w))) written).
  set (w4 := mkWorld (self w3) (Disk.write save_path file (disk w3))
               (trace w3) (stdout w3) (warnings w3)).
  assert (Hf4 : lookup_str (_vcf_path (self w4)) (disk w4) = Some f).
  { change (lookup_str (_vcf_path (self w))
              (Disk.write save_path file (Disk.remove save_path (disk w))) =
            Some f).
    rewrite lookup_write_other, lookup_remove_other;
      try assumption; now apply not_eq_sym. }
  exists (mkWorld (self (after_reset f w4)) (disk w4)
            (trace (after_reset f w4))
            (stdout w4 ++ [PrText ("VCF saved to " ++ save_path)])%list
            (warnings w4)).
  split.
  - unfold save_vcf.
    rewrite (bind_ok _ _ w w (self w)) by reflexivity.
    rewrite (bind_ok _ _ w w1 wr0) by reflexivity.
    assert (Hsel : match selection with
                   | Some l => ret l
                   | None => var_ids
                   end w1 = (Ok keep, w2) \/
                   match selection with
                   | Some l => ret l
                   | None => var_ids
                   end w1 = (Ok keep, w1)).
    { destruct selection as [l |]; [now right | left].
      now apply var_ids_when_built. }
    assert (Hids : forall w0, w0 = w1 \/ w0 = w2 ->
                              var_ids w0 = (Ok (df_index t), w2)).
    { intros w0 [-> | ->]; now rewrite (var_ids_when_built t). }
    destruct Hsel as [Hsel | Hsel];
      rewrite (bind_ok _ _ _ _ _ Hsel);
      [rewrite (bind_ok _ _ _ _ _ (Hids w2 (or_intror eq_refl)))
      |rewrite (bind_ok _ _ _ _ _ (Hids w1 (or_introl eq_refl)))];
      rewrite (bind_ok _ _ w2 w2 (self w2)) by reflexivity;
      change (vcf_pending (vcf (self w2))) with recs;
      rewrite (bind_ok _ _ w2 w3 _ Hloop);
      rewrite (bind_ok _ _ w3 w4 tt) by reflexivity;
      rewrite (bind_ok _ _ _ _ _ (reset_outcome w4 f Hf4));
      reflexivity.
  - change (disk (mkWorld (self (after_reset f w4)) (disk w4)
                    (trace (after_reset f w4))
                    (stdout w4 ++ [PrText ("VCF saved to " ++ save_path)])%list
                    (warnings w4)))
      with (Disk.write save_path file (Disk.remove save_path (disk w))).
    split; [apply lookup_written |].
    split.
    { intros p Hp. rewrite lookup_write_other by exact Hp.
      now apply lookup_remove_other. }
    now repeat split.
Qed.

Lemma save_vcf_writes_selected_witness :
  let w := Fixture.built [] "clashing.vcf" Fixture.clashing in
  exists w',
    save_vcf (fun v _ => Ok v) "out.vcf" false (Some [CStr "rs1"]) w =
      (Ok tt, w') /\
    lookup_str "out.vcf" (disk w') =
      Some (mkVcfFile (file_header Fixture.clashing) ["s1"; "s2"]
              (file_records Fixture.clashing)) /\
    (forall p, p <> "out.vcf" ->
               lookup_str p (disk w') = lookup_str p (disk w)) /\
    cached (metadata_of [] (file_records Fixture.clashing)) w' /\
    vcf (self w') = rewound Fixture.clashing ["s1"; "s2"] /\
    stdout w' = [PrText "VCF saved to out.vcf"].
Proof.
  apply (save_vcf_writes_selected (fun v _ => Ok v) (fun v _ => v)
           "out.vcf" false (Some [CStr "rs1"])
           (metadata_of [] (file_records Fixture.clashing))
           (Fixture.built [] "clashing.vcf" Fixture.clashing)
           Fixture.clashing);
    try reflexivity; discriminate.
Defined.

(** X12.  [save_vcf] before [variants] has been read: the writer has
    already created the output file when the IDs are asked for, so the
    [AttributeError] leaves a path that no longer opens as a call set,
    whatever was there before; no record has been read. *)
Theorem save_vcf_before_variants
    (set_ID : Variant -> Cell -> Res Variant) (save_path : string)
    (add_ids : bool) (selection : option (list Cell)) (w : World) :
  _variants_ (self w) = None ->
  exists w',
    save_vcf set_ID save_path add_ids selection w =
      (Raise (AttributeError "_variants_"), w') /\
    lookup_str save_path (disk w') = None /\
    (forall p, p <> save_path ->
               lookup_str p (disk w') = lookup_str p (disk w)) /\
    self w' = self w /\ trace w' = trace w /\ stdout w' = stdout w.
Proof.
  intros Hn.
  set (w1 := mkWorld (self w) (Disk.remove save_path (disk w)) (trace w)
               (stdout w) (warnings w)).
  exists w1. split.
  - unfold save_vcf.
    rewrite (bind_ok _ _ w w (self w)) by reflexivity.
    rewrite (bind_ok _ _ w w1
               (mkWriter save_path (file_header (vcf_file (vcf (self w))))
                  (vcf_active (vcf (self w))) [])) by reflexivity.
    destruct selection as [l |].
    + rewrite (bind_ok _ _ w1 w1 l) by reflexivity.
      apply bind_raise. now apply var_ids_when_unbuilt.
    + apply bind_raise. now apply var_ids_when_unbuilt.
  - split; [apply lookup_removed |].
    split; [intros p Hp; now apply lookup_remove_other |].
    now repeat split.
Qed.

Lemma save_vcf_before_variants_witness :
  let w := Fixture.fresh "annotated.vcf" Fixture.annotated in
  lookup_str "clashing.vcf" (disk w) = Some Fixture.clashing /\
  exists w',
    save_vcf (fun v _ => Ok v) "clashing.vcf" false None w =
      (Raise (AttributeError "_variants_"), w') /\
    lookup_str "clashing.vcf" (disk w') = None /\
    (forall p, p <> "clashing.vcf" ->
               lookup_str p (disk w') = lookup_str p (disk w)) /\
    self w' = self w /\ trace w' = trace w /\ stdout w' = stdout w.
Proof.
  split; [reflexivity |].
  apply (save_vcf_before_variants (fun v _ => Ok v) "clashing.vcf" false
           None (Fixture.fresh "annotated.vcf" Fixture.annotated)).
  reflexivity.
Defined.

(** ** The genotype matrix *)

Lemma Genotype_init_nonempty (call : list Z) :
  call <> [] -> Genotype_init call = Ok (decode_call call).
Proof.
  intros Hne.
  destruct (exists_last Hne) as (al & ph & ->).
  unfold Genotype_init, decode_call, Py.list_init.
  now rewrite list_getitem_last, removelast_last, last_last.
Qed.

Lemma decode_row (calls : list (list Z)) :
  Forall (fun c => c <> []) calls ->
  res_map Genotype_init calls = Ok (map decode_call calls).
Proof.
  induction 1 as [| c calls Hc _ IH]; simpl; [reflexivity |].
  now rewrite (Genotype_init_nonempty c Hc), IH.
Qed.

Lemma rows_appended {A B} (h : A -> B) (l : list A) (acc : list B) :
  fold_left (fun s v => (s ++ [h v])%list) l acc = (acc ++ map h l)%list.
Proof.
  revert acc. induction l as [| a l IH]; intros acc; simpl.
  - now rewrite app_nil_r.
  - now rewrite IH, <- app_assoc.
Qed.

Section GenotypeMatrix.

Variable raw_calls : Variant -> list string -> list (list Z).
Variable GenotypeFrame : Type.
Variable genotype_frame :
  list (list Genotype) -> list Cell -> list string -> Res GenotypeFrame.

(** The loop of [show_genotypes] over a handle whose raw calls all have a
    phase flag. *)
Lemma genotypes_collected (w : World) :
  Forall (fun v => Forall (fun c => c <> [])
                     (raw_calls v (vcf_active (vcf (self w)))))
    (vcf_pending (vcf (self w))) ->
  for_records (vcf_pending (vcf (self w)))
    (fun var genotypes =>
       row <- lift (res_map Genotype_init
                      (raw_calls var (vcf_active (vcf (self w))))) ;;
       ret (genotypes ++ [row])%list)
    [] w =
  (Ok (map (fun v => map decode_call
                       (raw_calls v (vcf_active (vcf (self w)))))
         (vcf_pending (vcf (self w)))),
   consumed (List.length (vcf_pending (vcf (self w)))) [] w).
Proof.
  intros Hcalls.
  rewrite (for_records_pure _
             (fun v s =>
                (s ++ [map decode_call
                         (raw_calls v (vcf_active (vcf (self w))))])%list)).
  - now rewrite rows_appended.
  - intros v Hv s w0. rewrite Forall_forall in Hcalls.
    unfold bind, lift. now rewrite (decode_row _ (Hcalls v Hv)).
  - reflexivity.
Qed.

(** X13.  [show_genotypes] on a built facade: every raw call of every
    pending record is decoded (alleles: all but the last element; phase:
    the last), the rows go to the table constructor with the IDs as index
    and the facade's samples as columns, and what it returns is returned;
    the stream is read once and reset. *)
Theorem show_genotypes_matrix (t : DataFrame) (w : World) (f : VcfFile)
    (table : GenotypeFrame) :
  cached t w ->
  lookup_str (_vcf_path (self w)) (disk w) = Some f ->
  Forall (fun v => Forall (fun c => c <> [])
                     (raw_calls v (vcf_active (vcf (self w)))))
    (vcf_pending (vcf (self w))) ->
  genotype_frame
    (map (fun v => map decode_call (raw_calls v (vcf_active (vcf (self w)))))
       (vcf_pending (vcf (self w))))
    (df_index t) (samples (self w)) = Ok table ->
  exists w',
    show_genotypes raw_calls GenotypeFrame genotype_frame w = (Ok table, w') /\
    cached t w' /\
    vcf (self w') = rewound f (samples (self w)) /\
    reads (trace w') =
      (reads (trace w) + List.length (vcf_pending (vcf (self w))))%nat.
Proof.
  intros Hc Hf Hcalls Hframe.
  set (w1 := consumed (List.length (vcf_pending (vcf (self w)))) [] w).
  set (w2 := mkWorld (with_var_ids (df_index t) (self w1)) (disk w1)
               (trace w1) (stdout w1) (warnings w1)).
  exists (after_reset f w2). split.
  - unfold show_genotypes.
    rewrite (bind_ok _ _ w w (self w)) by reflexivity.
    rewrite (bind_ok _ _ _ _ _ (genotypes_collected w Hcalls)). fold w1.
    rewrite (bind_ok _ _ _ _ _ (var_ids_when_built t w1 Hc)). fold w2.
    rewrite (bind_ok _ _ w2 w2 (self w2)) by reflexivity.
    rewrite (bind_ok _ _ w2 w2 table)
      by (unfold lift; simpl samples; now rewrite Hframe).
    rewrite (bind_ok _ _ _ _ _ (reset_outcome w2 f Hf)).
    reflexivity.
  - split; [exact Hc |]. split; [reflexivity |].
    simpl. rewrite !reads_app, reads_repeat_read.
    change (reads (reset_events _)) with O. lia.
Qed.

(** X14.  [show_genotypes] before [variants] has been read: the whole
    stream is decoded first, then the IDs are asked of a table that does
    not exist; the [AttributeError] escapes before the reset and the
    handle is left at the end of the stream. *)
Theorem show_genotypes_before_variants (w : World) :
  _variants_ (self w) = None ->
  Forall (fun v => Forall (fun c => c <> [])
                     (raw_calls v (vcf_active (vcf (self w)))))
    (vcf_pending (vcf (self w))) ->
  exists w',
    show_genotypes raw_calls GenotypeFrame genotype_frame w =
      (Raise (AttributeError "_variants_"), w') /\
    vcf_pending (vcf (self w')) = [] /\
    trace w' =
      (trace w
       ++ repeat EvRead (List.length (vcf_pending (vcf (self w)))))%list /\
    _variants_ (self w') = None.
Proof.
  intros Hn Hcalls.
  exists (consumed (List.length (vcf_pending (vcf (self w)))) [] w).
  split.
  - unfold show_genotypes.
    rewrite (bind_ok _ _ w w (self w)) by reflexivity.
    rewrite (bind_ok _ _ _ _ _ (genotypes_collected w Hcalls)).
    apply bind_raise. now apply var_ids_when_unbuilt.
  - now repeat split.
Qed.

End GenotypeMatrix.

Lemma show_genotypes_matrix_witness :
  let w := Fixture.built [] "annotated.vcf" Fixture.annotated in
  let calls := fun (_ : Variant) (active : list string) =>
                 map (fun _ : string => [0; 1; 1]) active in
  exists w',
    show_genotypes calls (list (list Genotype)) (fun rows _ _ => Ok rows) w =
      (Ok [[mkGenotype [0; 1] 1; mkGenotype [0; 1] 1]], w') /\
    cached (metadata_of [] (file_records Fixture.annotated)) w' /\
    vcf (self w') = rewound Fixture.annotated ["s1"; "s2"] /\
    reads (trace w') = (reads (trace w) + 1)%nat.
Proof.
  apply (show_genotypes_matrix
           (fun _ active => map (fun _ : string => [0; 1; 1]) active)
           (list (list Genotype)) (fun rows _ _ => Ok rows)
           (metadata_of [] (file_records Fixture.annotated))
           (Fixture.built [] "annotated.vcf" Fixture.annotated)
           Fixture.annotated);
    try reflexivity.
  repeat constructor; discriminate.
Defined.

Lemma show_genotypes_before_variants_witness :
  let w := Fixture.fresh "clashing.vcf" Fixture.clashing in
  let calls := fun (_ : Variant) (active : list string) =>
                 map (fun _ : string => [0; 1; 1]) active in
  exists w',
    show_genotypes calls (list (list Genotype)) (fun rows _ _ => Ok rows) w =
      (Raise (AttributeError "_variants_"), w') /\
    vcf_pending (vcf (self w')) = [] /\
    trace w' = [EvRead; EvRead] /\
    _variants_ (self w') = None.
Proof.
  apply (show_genotypes_before_variants
           (fun _ active => map (fun _ : string => [0; 1; 1]) active)
           (list (list Genotype)) (fun rows _ _ => Ok rows)
           (Fixture.fresh "clashing.vcf" Fixture.clashing));
    try reflexivity.
  repeat constructor; discriminate.
Defined.

(** ** Sub-facades: subset and split *)

Lemma text_cell_listed (s : string) (l : list Cell) :
  existsb (String.eqb s) (flat_map Parsing.cell_text l) = true <->
  In (CStr s) l.
Proof.
  rewrite existsb_exists. split.
  - intros (x & Hx & E). apply String.eqb_eq in E. subst x.
    apply in_flat_map in Hx. destruct Hx as (c & Hc & Hs).
    destruct c; simpl in Hs; try contradiction.
    destruct Hs as [-> | []]. exact Hc.
  - intros H. exists s. split; [| apply String.eqb_refl].
    apply in_flat_map. exists (CStr s). split; [exact H | now left].
Qed.

(** [setup] with a sample table that has the sample-id column, on a path
    that opens. *)
Lemma setup_sub_facade (parent : VCFClass) (f : VcfFile) (table : DataFrame)
    (k : nat) (w : World) :
  lookup_str (_vcf_path parent) (disk w) = Some f ->
  position (CStr (_sample_id_column parent)) (df_columns table) = Some k ->
  exists o w',
    setup (_vcf_path parent) (Some table) (_sample_id_column parent)
      (_threads parent) w = (Ok o, w') /\
    sub_facade_of parent f table o /\
    self w' = self w /\ disk w' = disk w /\ stdout w' = stdout w /\
    warnings w' = warnings w /\ reads (trace w') = reads (trace w).
Proof.
  intros Hf Hk.
  unfold setup, Parsing.setup_samples_and_vcf, Cyvcf2.VCF_open.
  unfold bind at 1. unfold bind at 1. rewrite Hf. simpl.
  unfold bind, lift, Pd.set_index. rewrite Hk. simpl.
  eexists _, _. split; [reflexivity |].
  split.
  - unfold sub_facade_of; simpl.
    do 10 (split; [reflexivity |]).
    intros s. rewrite filter_In, text_cell_listed. reflexivity.
  - repeat split. simpl. rewrite !reads_app.
    unfold reads at 2 3. simpl. lia.
Qed.

Lemma loc_rows_columns (table picked : DataFrame) (ids : list Cell) :
  loc_rows table ids = Ok picked -> df_columns picked = df_columns table.
Proof.
  unfold loc_rows. destruct (forallb _ ids); [| discriminate].
  now intros [= <-].
Qed.

(** X15.  [subset(what="samples", ids=...)]: if some id is not a row
    label of the sample table, [KeyError] is raised before any file is
    opened and nothing changes; if all are (and the table has the
    sample-id column and the path opens), the result is a new facade on
    the same path with its own handle at the first record, nothing
    cached, and as roster the file's samples named by the selected rows;
    the facade it was called on is untouched and no record is read. *)
Theorem subset_samples_outcome (ids : list Cell) (w : World) :
  (forallb (fun i => cell_in i (df_index (sample_info (self w)))) ids = false ->
   subset "samples" ids w = (Raise (KeyError "not in index"), w)) /\
  (forall f k,
      forallb (fun i => cell_in i (df_index (sample_info (self w)))) ids
        = true ->
      lookup_str (_vcf_path (self w)) (disk w) = Some f ->
      position (CStr (_sample_id_column (self w)))
        (df_columns (sample_info (self w))) = Some k ->
      exists picked o w',
        loc_rows (sample_info (self w)) ids = Ok picked /\
        subset "samples" ids w = (Ok (Some o), w') /\
        sub_facade_of (self w) f picked o /\
        self w' = self w /\ disk w' = disk w /\
        reads (trace w') = reads (trace w)).
Proof.
  split.
  - intros Hmiss.
    change (subset "samples" ids)
      with (r <- _subset_samples ids ;; ret (Some r)).
    unfold _subset_samples.
    apply bind_raise.
    rewrite (bind_ok _ _ w w (self w)) by reflexivity.
    apply bind_raise. unfold lift, loc_rows. now rewrite Hmiss.
  - intros f k Hall Hf Hk.
    destruct (loc_rows (sample_info (self w)) ids) as [picked |] eqn:El.
    2:{ unfold loc_rows in El. rewrite Hall in El. discriminate. }
    rewrite <- (loc_rows_columns _ _ _ El) in Hk.
    destruct (setup_sub_facade (self w) f picked k w Hf Hk)
      as (o & w' & Es & Hsub & Hself & Hdisk & _ & _ & Hreads).
    exists picked, o, w'. split; [reflexivity |].
    split; [| split; [exact Hsub | now repeat split]].
    change (subset "samples" ids)
      with (r <- _subset_samples ids ;; ret (Some r)).
    unfold _subset_samples.
    rewrite (bind_ok _ _ w w' o); [reflexivity |].
    rewrite (bind_ok _ _ w w (self w)) by reflexivity.
    rewrite (bind_ok _ _ w w picked) by (unfold lift; now rewrite El).
    exact Es.
Qed.

Section SplitFacts.

Lemma row_eqb_refl (r : list Cell) : row_eqb r r = true.
Proof.
  induction r as [| c r IH]; simpl; [reflexivity |].
  now rewrite Cell_eqb_refl, IH.
Qed.

Context {V : Type}.

Lemma key_set_has_key (key : list Cell) (v : V) (d : list (list Cell * V)) :
  has_key key (key_set key v d) = true.
Proof.
  unfold has_key.
  induction d as [| [k v'] d IH]; simpl.
  - now rewrite row_eqb_refl.
  - destruct (row_eqb key k) eqn:E; simpl; rewrite E; simpl;
      [reflexivity | exact IH].
Qed.

Lemma key_set_keeps_keys (key k' : list Cell) (v : V)
    (d : list (list Cell * V)) :
  has_key k' d = true -> has_key k' (key_set key v d) = true.
Proof.
  unfold has_key.
  induction d as [| [k v'] d IH]; simpl; [discriminate |].
  intros H. destruct (row_eqb key k); simpl.
  - exact H.
  - apply orb_true_iff in H. destruct H as [H | H].
    + now rewrite H.
    + rewrite (IH H). apply orb_true_r.
Qed.

Lemma key_set_Forall (P : list Cell * V -> Prop) (key : list Cell) (v : V)
    (d : list (list Cell * V)) :
  Forall P d ->
  (forall k, row_eqb key k = true -> P (k, v)) ->
  Forall P (key_set key v d).
Proof.
  intros Hd Hv.
  induction Hd as [| [k v'] d Hk Hd' IH]; simpl.
  - constructor; [| constructor]. apply Hv, row_eqb_refl.
  - destruct (row_eqb key k) eqn:E.
    + constructor; [now apply Hv | assumption].
    + constructor; assumption.
Qed.

End SplitFacts.

Lemma split_loop_outcome (parent : VCFClass) (f : VcfFile)
    (all : list (list Cell * DataFrame)) :
  forall gs acc w,
    incl gs all ->
    Forall (fun g => position (CStr (_sample_id_column parent))
                       (df_columns (snd g)) <> None) gs ->
    lookup_str (_vcf_path parent) (disk w) = Some f ->
    Forall (fun kv => exists g, In g all /\ row_eqb (fst g) (fst kv) = true /\
                                sub_facade_of parent f (snd g) (snd kv)) acc ->
    exists data w',
      split_loop parent gs acc w = (Ok data, w') /\
      Forall (fun kv => exists g, In g all /\
                                  row_eqb (fst g) (fst kv) = true /\
                                  sub_facade_of parent f (snd g) (snd kv))
        data /\
      (forall k, has_key k acc = true -> has_key k data = true) /\
      (forall g, In g gs -> has_key (fst g) data = true) /\
      stdout w' = (stdout w ++ map (fun g => PrKey (fst g)) gs)%list /\
      self w' = self w /\ disk w' = disk w /\
      reads (trace w') = reads (trace w).
Proof.
  induction gs as [| [name group] gs IH]; intros acc w Hin Hcol Hf Hacc.
  - exists acc, w. simpl. rewrite app_nil_r.
    repeat split; try assumption; try reflexivity.
    + now intros k.
    + intros g [].
  - inversion Hcol as [| g' gs' Hg Hrest]; subst. simpl in Hg.
    destruct (position (CStr (_sample_id_column parent)) (df_columns group))
      as [k |] eqn:Hk; [| contradiction].
    set (w1 := mkWorld (self w) (disk w) (trace w)
                 (stdout w ++ [PrKey name])%list (warnings w)).
    destruct (setup_sub_facade parent f group k w1 Hf Hk)
      as (o & w2 & Es & Hsub & Hself & Hdisk & Hout & _ & Hreads).
    destruct (IH (key_set name o acc) w2) as
      (data & w' & El & Hdata & Hkeep & Hnew & Hout' & Hself' & Hdisk'
       & Hreads').
    + intros g Hg'. apply Hin. now right.
    + exact Hrest.
    + now rewrite Hdisk.
    + apply key_set_Forall; [exact Hacc |].
      intros k' Ek. exists (name, group).
      split; [apply Hin; now left | now split].
    + exists data, w'. split.
      { change (split_loop parent ((name, group) :: gs) acc)
          with (print (PrKey name) ;;
                tempclass <- setup (_vcf_path parent) (Some group)
                               (_sample_id_column parent) (_threads parent) ;;
                split_loop parent gs (key_set name tempclass acc)).
        rewrite (bind_ok _ _ w w1 tt) by reflexivity.
        rewrite (bind_ok _ _ _ _ _ Es). exact El. }
      split; [exact Hdata |].
      split; [intros k' Hk'; now apply Hkeep, key_set_keeps_keys |].
      split.
      { intros g [<- | Hg']; [| now apply Hnew].
        apply Hkeep, key_set_has_key. }
      split.
      { rewrite Hout', Hout. simpl. now rewrite <- app_assoc. }
      split; [now rewrite Hself', Hself |].
      split; [now rewrite Hdisk', Hdisk |].
      now rewrite Hreads', Hreads.
Qed.

(** X16.  [split(by="samples", columns=...)] when the grouping succeeds,
    every group has the sample-id column and the path opens: each group
    key is printed, in order; the dict returned has an entry under every
    group key, and every entry is a facade built by [setup] from a group
    with that key: the parent's path, nothing cached, its own handle at the
    first record, the roster named by the group.  The facade it was called
    on is untouched and no record is read. *)
Theorem split_by_samples_outcome
    (groupby : DataFrame -> list string -> Res (list (list Cell * DataFrame)))
    (columns : list string) (gs : list (list Cell * DataFrame))
    (w : World) (f : VcfFile) :
  groupby (sample_info (self w)) columns = Ok gs ->
  Forall (fun g => position (CStr (_sample_id_column (self w)))
                     (df_columns (snd g)) <> None) gs ->
  lookup_str (_vcf_path (self w)) (disk w) = Some f ->
  exists data w',
    split groupby "samples" columns w = (Ok (Some data), w') /\
    Forall (fun kv => exists g, In g gs /\ row_eqb (fst g) (fst kv) = true /\
                                sub_facade_of (self w) f (snd g) (snd kv))
      data /\
    (forall g, In g gs -> has_key (fst g) data = true) /\
    stdout w' = (stdout w ++ map (fun g => PrKey (fst g)) gs)%list /\
    self w' = self w /\ disk w' = disk w /\
    reads (trace w') = reads (trace w).
Proof.
  intros Hg Hcol Hf.
  destruct (split_loop_outcome (self w) f gs gs [] w)
    as (data & w' & El & Hdata & _ & Hnew & Hout & Hself & Hdisk & Hreads);
    try assumption; [apply incl_refl | constructor |].
  exists data, w'. split; [| now repeat split].
  change (split groupby "samples" columns)
    with (r <- (o <- get_self ;;
                groups <- lift (groupby (sample_info o) columns) ;;
                split_loop o groups []) ;;
          ret (Some r)).
  rewrite (bind_ok _ _ w w' data); [reflexivity |].
  rewrite (bind_ok _ _ w w (self w)) by reflexivity.
  rewrite (bind_ok _ _ w w gs) by (unfold lift; now rewrite Hg).
  exact El.
Qed.

Lemma subset_samples_outcome_witness :
  let w := Fixture.fresh "annotated.vcf" Fixture.annotated in
  subset "samples" [CStr "s9"] w = (Raise (KeyError "not in index"), w) /\
  exists picked o w',
    loc_rows (sample_info (self w)) [CStr "s2"] = Ok picked /\
    subset "samples" [CStr "s2"] w = (Ok (Some o), w') /\
    sub_facade_of (self w) Fixture.annotated picked o /\
    self w' = self w /\ disk w' = disk w /\
    reads (trace w') = reads (trace w).
Proof.
  split.
  - apply (proj1 (subset_samples_outcome [CStr "s9"]
                    (Fixture.fresh "annotated.vcf" Fixture.annotated))).
    reflexivity.
  - apply (proj2 (subset_samples_outcome [CStr "s2"]
                    (Fixture.fresh "annotated.vcf" Fixture.annotated))
             Fixture.annotated O); reflexivity.
Defined.

Lemma split_by_samples_outcome_witness :
  let w := Fixture.fresh "annotated.vcf" Fixture.annotated in
  exists data w',
    split Fixture.by_sample "samples" ["sample"] w = (Ok (Some data), w') /\
    Forall (fun kv => exists g, In g Fixture.groups /\
                                row_eqb (fst g) (fst kv) = true /\
                                sub_facade_of (self w) Fixture.annotated
                                  (snd g) (snd kv))
      data /\
    (forall g, In g Fixture.groups -> has_key (fst g) data = true) /\
    stdout w' = [PrKey [CStr "s1"]; PrKey [CStr "s2"]] /\
    self w' = self w /\ disk w' = disk w /\
    reads (trace w') = reads (trace w).
Proof.
  apply (split_by_samples_outcome Fixture.by_sample ["sample"]
           Fixture.groups
           (Fixture.fresh "annotated.vcf" Fixture.annotated)
           Fixture.annotated); try reflexivity.
  repeat constructor; discriminate.
Defined.

(** ** Statistics under repeated IDs *)

Section RepeatedLabels.

Lemma any_duplicated_snoc (acc : list Cell) (k : Cell) :
  Pd.any_duplicated acc = false ->
  cell_in k acc = false ->
  Pd.any_duplicated (acc ++ [k]) = false.
Proof.
  induction acc as [| x acc IH]; simpl; intros Hd Hk; [reflexivity |].
  apply orb_false_iff in Hd. destruct Hd as [Hx Hd].
  apply orb_false_iff in Hk. destruct Hk as [Hkx Hk].
  rewrite cell_in_app, Hx, (IH Hd Hk). simpl.
  now rewrite Cell_eqb_sym, Hkx.
Qed.

Lemma union_keys_distinct (ks acc : list Cell) :
  Pd.any_duplicated acc = false ->
  Pd.any_duplicated (Dict.union_keys acc ks) = false.
Proof.
  revert acc. induction ks as [| k ks IH]; intros acc Hd; simpl.
  - exact Hd.
  - destruct (cell_in k acc) eqn:E; apply IH; [exact Hd |].
    now apply any_duplicated_snoc.
Qed.

Lemma union_keys_length (ks acc : list Cell) :
  (List.length (Dict.union_keys acc ks)
   <= List.length acc + List.length ks)%nat.
Proof.
  revert acc. induction ks as [| k ks IH]; intros acc; simpl; [lia |].
  destruct (cell_in k acc).
  - specialize (IH acc). lia.
  - specialize (IH (acc ++ [k])%list). rewrite length_app in IH.
    simpl in IH. lia.
Qed.

Lemma keys_after_set (k v : Cell) (d : Dict.t) :
  Dict.keys (Dict.set k v d) = Dict.union_keys (Dict.keys d) [k].
Proof.
  unfold Dict.keys.
  induction d as [| [k' v'] d IH]; simpl; [reflexivity |].
  destruct (Cell_eqb k k'); simpl; [reflexivity |].
  rewrite IH. simpl.
  now destruct (cell_in k (map fst d)).
Qed.

Lemma keys_after_loop (val : Variant * Cell -> Cell)
    (pairs : list (Variant * Cell)) (d : Dict.t) :
  Dict.keys (fold_left (fun d p => Dict.set (snd p) (val p) d) pairs d) =
  Dict.union_keys (Dict.keys d) (map snd pairs).
Proof.
  revert d. induction pairs as [| p pairs IH]; intros d; simpl;
    [reflexivity |].
  rewrite IH, keys_after_set. simpl.
  now destruct (cell_in (snd p) (Dict.keys d)).
Qed.

Variable cols : list (string * (Variant -> Cell)).

Lemma stats_loop_by_column (pairs : list (Variant * Cell))
    (D : string * (Variant -> Cell) -> Dict.t) :
  fold_left
    (fun stats (vi : Variant * Cell) =>
       map (fun sc : (string * Dict.t) * (string * (Variant -> Cell)) =>
              (fst (fst sc),
               Dict.set (snd vi) (snd (snd sc) (fst vi)) (snd (fst sc))))
         (combine stats cols))
    pairs (map (fun c => (fst c, D c)) cols) =
  map (fun c : string * (Variant -> Cell) =>
         (fst c,
          fold_left (fun d (p : Variant * Cell) =>
                       Dict.set (snd p) (snd c (fst p)) d) pairs (D c)))
    cols.
Proof.
  revert D. induction pairs as [| p pairs IH]; intros D; simpl;
    [reflexivity |].
  rewrite combine_map_self, map_map. simpl.
  exact (IH (fun c => Dict.set (snd p) (snd c (fst p)) (D c))).
Qed.

Lemma same_keys_labels (K acc : list Cell)
    (d : list (string * Dict.t)) :
  Forall (fun col => Dict.keys (snd col) = K) d ->
  (forall k, In k K -> cell_in k acc = true) ->
  fold_left (fun acc col => Dict.union_keys acc (Dict.keys (snd col))) d acc
  = acc.
Proof.
  intros Hd Hk. induction Hd as [| col d Hcol _ IH]; simpl;
    [reflexivity |].
  rewrite Hcol, union_keys_known by exact Hk. exact IH.
Qed.

Lemma frame_of_same_keys (K : list Cell) (d : list (string * Dict.t)) :
  d <> [] ->
  Pd.any_duplicated K = false ->
  Forall (fun col => Dict.keys (snd col) = K) d ->
  df_index (Dict.to_frame d) = K /\
  List.length (df_rows (Dict.to_frame d)) = List.length K /\
  df_columns (Dict.to_frame d) = map (fun col => CStr (fst col)) d.
Proof.
  intros Hne HK Hd.
  assert (Hlab :
    fold_left (fun acc col => Dict.union_keys acc (Dict.keys (snd col))) d []
    = K).
  { destruct d as [| col d]; [contradiction |].
    apply Forall_cons_iff in Hd. destruct Hd as [Hcol Hrest]. simpl.
    rewrite Hcol, union_keys_new by exact HK. simpl.
    apply (same_keys_labels K);
      [exact Hrest | intros k; apply cell_in_member]. }
  unfold Dict.to_frame; simpl. rewrite Hlab, length_map.
  now repeat split.
Qed.

End RepeatedLabels.

Lemma zip_records_pairs (recs : list Variant) (ids : list Cell) :
  fst (Cyvcf2.zip_records recs ids) = combine recs ids.
Proof.
  revert ids. induction recs as [| v recs IH]; intros [| i ids]; simpl;
    try reflexivity.
  specialize (IH ids).
  destruct (Cyvcf2.zip_records recs ids) as [pairs [n rest]]. simpl in *.
  now rewrite IH.
Qed.

(** X17.  [get_var_stats(add_to_info=False)] on any built facade whose
    path opens: the index of the table returned is the IDs paired with the
    records read, each kept once, in order of first appearance.  No label
    repeats, and there is one row per label: records that share an ID are
    merged into a single row. *)
Theorem get_var_stats_merges_repeated_ids (info_fields : list string)
    (t : DataFrame) (w : World) (f : VcfFile) :
  cached t w ->
  lookup_str (_vcf_path (self w)) (disk w) = Some f ->
  exists table w',
    get_var_stats info_fields false w = (Ok table, w') /\
    df_index table =
      Dict.union_keys []
        (map snd (combine (vcf_pending (vcf (self w))) (df_index t))) /\
    Pd.any_duplicated (df_index table) = false /\
    List.length (df_rows table) = List.length (df_index table) /\
    (List.length (df_index table)
     <= List.length (vcf_pending (vcf (self w))))%nat /\
    df_columns table = map (fun c => CStr (fst c)) stat_columns /\
    cached t w' /\
    vcf (self w') = rewound f (samples (self w)).
Proof.
  intros Hc Hf.
  set (recs := vcf_pending (vcf (self w))).
  set (w1 := mkWorld (with_var_ids (df_index t) (self w)) (disk w) (trace w)
               (stdout w) (warnings w)).
  set (K := Dict.union_keys [] (map snd (combine recs (df_index t)))).
  assert (HK : Pd.any_duplicated K = false)
    by now apply union_keys_distinct.
  destruct (Cyvcf2.zip_records recs (df_index t)) as [pairs [n rest]] eqn:Ez.
  assert (Hpairs : pairs = combine recs (df_index t)).
  { rewrite <- zip_records_pairs, Ez. reflexivity. }
  set (w2 := consumed n rest w1).
  assert (Ezip : Cyvcf2.zip_iterate (df_index t) w1 = (Ok pairs, w2)).
  { unfold Cyvcf2.zip_iterate, bind, get_self.
    change (vcf_pending (vcf (self w1))) with recs. now rewrite Ez. }
  set (d := fold_left
              (fun stats (vi : Variant * Cell) =>
                 map (fun sc : (string * Dict.t)
                               * (string * (Variant -> Cell)) =>
                        (fst (fst sc),
                         Dict.set (snd vi) (snd (snd sc) (fst vi))
                           (snd (fst sc))))
                   (combine stats stat_columns))
              pairs (map (fun c => (fst c, [])) stat_columns)).
  assert (Hd : Forall (fun col => Dict.keys (snd col) = K) d /\ d <> [] /\
               map (fun col : string * Dict.t => CStr (fst col)) d =
               map (fun c => CStr (fst c)) stat_columns).
  { pose proof (stats_loop_by_column stat_columns pairs (fun _ => []))
      as Hs.
    cbv beta in Hs.
    replace d with
      (map (fun c : string * (Variant -> Cell) =>
              (fst c,
               fold_left (fun d (p : Variant * Cell) =>
                            Dict.set (snd p) (snd c (fst p)) d) pairs []))
         stat_columns) by (symmetry; exact Hs).
    clear Hs.
    split; [| split].
    - apply Forall_forall. intros col Hcol.
      apply in_map_iff in Hcol. destruct Hcol as (c & <- & _). simpl.
      rewrite (keys_after_loop (fun p => snd c (fst p))).
      unfold K. now rewrite Hpairs.
    - discriminate.
    - now rewrite map_map. }
  destruct Hd as (Hkeys & Hne & Hcols).
  destruct (frame_of_same_keys K d Hne HK Hkeys) as (Hidx & Hrows & Hcol).
  exists (Dict.to_frame d), (after_reset f w2).
  split.
  - unfold get_var_stats. cbv zeta.
    rewrite (bind_ok _ _ _ _ _ (var_ids_when_built t w Hc)). fold w1.
    rewrite (bind_ok _ _ _ _ _ Ezip).
    unfold bind at 1. unfold ret at 1.
    rewrite (bind_ok _ _ _ _ _ (reset_outcome w2 f Hf)).
    reflexivity.
  - rewrite Hidx, Hrows, Hcol, Hcols.
    repeat split; try assumption; try reflexivity.
    unfold K.
    pose proof (union_keys_length
                  (map snd (combine recs (df_index t))) []) as Hlen.
    rewrite length_map, length_combine in Hlen. simpl in Hlen.
    fold recs. lia.
Qed.

Lemma get_var_stats_merges_repeated_ids_witness :
  let w := Fixture.built [] "clashing.vcf" Fixture.clashing in
  List.length (vcf_pending (vcf (self w))) = 2%nat /\
  exists table w',
    get_var_stats [] false w = (Ok table, w') /\
    df_index table = [CStr "rs1"] /\
    Pd.any_duplicated (df_index table) = false /\
    List.length (df_rows table) = List.length (df_index table) /\
    (List.length (df_index table) <= 2)%nat /\
    df_columns table = map (fun c => CStr (fst c)) stat_columns /\
    cached (metadata_of [] (file_records Fixture.clashing)) w' /\
    vcf (self w') = rewound Fixture.clashing ["s1"; "s2"].
Proof.
  split; [reflexivity |].
  apply (get_var_stats_merges_repeated_ids []
           (metadata_of [] (file_records Fixture.clashing))
           (Fixture.built [] "clashing.vcf" Fixture.clashing)
           Fixture.clashing); reflexivity.
Defined.
